(** * goboy: cartridge banking controllers and the machine's interrupt,
      timer, stack and save-state code

    A shallow embedding of [pkg/cart] (MBC1, MBC2, MBC3, MBC5) and of the
    parts of [pkg/gb/gameboy.go] that drive timers, interrupts, the stack
    and the save state, followed by the properties proved about them.

    Conventions.  Go's fixed-width integers are integers of [Z] with the
    wrap-around written out ([Go.uint8], [Go.uint16], [Go.uint32], [Go.int]).
    A slice is a [list Z] of bytes; an index expression [s[i]] is a lookup
    that yields [None] where Go panics with "index out of range". *)

From Stdlib Require Import ZArith Lia Bool.
From stdpp Require Import base list gmap.

Local Open Scope Z_scope.

(** ** Go primitives *)

Module Go.

Definition uint8 (x : Z) : Z := x mod 2 ^ 8.
Definition uint16 (x : Z) : Z := x mod 2 ^ 16.
Definition uint32 (x : Z) : Z := x mod 2 ^ 32.
(** [int32] and [int] (64 bits on the supported targets) are signed. *)
Definition int32 (x : Z) : Z := (x + 2 ^ 31) mod 2 ^ 32 - 2 ^ 31.
Definition int (x : Z) : Z := (x + 2 ^ 63) mod 2 ^ 64 - 2 ^ 63.

(** [make([]byte, n)]: [n] zero bytes. *)
Definition make (n : Z) : list Z := replicate (Z.to_nat n) 0.

(** [s[i]] for an index of unsigned type; [None] is the run-time panic. *)
Definition index (s : list Z) (i : Z) : option Z := s !! Z.to_nat i.

(** [s[i] = v]; [None] is the run-time panic. *)
Definition assign (s : list Z) (i v : Z) : option (list Z) :=
  if decide (Z.to_nat i < length s)%nat then Some (<[Z.to_nat i := v]> s)
  else None.

(** [copy(dst, src)]: the first [min(len(dst), len(src))] elements of
    [src] overwrite those of [dst]; the result is the new [dst]. *)
Definition copy (dst src : list Z) : list Z :=
  take (length dst) src ++ drop (length src) dst.

End Go.

Global Arguments Go.make : simpl never.

(** ** Package [bits] *)

Module bits.

(** Modelled from the spec: package [bits] is not among the sources; the
    engine "tests", "sets" and "clears" one bit of a byte.  [Test] reports
    whether bit [bit] of [value] is set, [Set_] returns [value] with that bit
    set and [Reset] returns it with that bit cleared, all on 8-bit values. *)
Definition Test (value bit : Z) : bool :=
  Z.land (Z.shiftr value bit) 1 =? 1.
Definition Set_ (value bit : Z) : Z :=
  Z.lor value (Go.uint8 (Z.shiftl 1 bit)).
Definition Reset (value bit : Z) : Z :=
  Z.land value (Z.lxor 0xFF (Go.uint8 (Z.shiftl 1 bit))).

End bits.

(** ** Package [cart] *)

Module cart.

(** The shared base of the four controllers.  Its declaration is not among
    the sources; the fields are the ones the constructors initialise and the
    methods use: [Rom], [RomBank] (a [uint32]), [Ram] and [RamEnabled]. *)
Record BaseMBC := mkBaseMBC {
  Rom : list Z;
  RomBank : Z;
  Ram : list Z;
  RamEnabled : bool
}.

Definition set_RomBank (b : BaseMBC) (x : Z) : BaseMBC :=
  mkBaseMBC (Rom b) x (Ram b) (RamEnabled b).
Definition set_Ram (b : BaseMBC) (x : list Z) : BaseMBC :=
  mkBaseMBC (Rom b) (RomBank b) x (RamEnabled b).
Definition set_RamEnabled (b : BaseMBC) (x : bool) : BaseMBC :=
  mkBaseMBC (Rom b) (RomBank b) (Ram b) x.

(** [uint32(address-0x4000)+(r.RomBank*0x4000)] *)
Definition romIndex (b : BaseMBC) (address : Z) : Z :=
  Go.uint32 (Go.uint16 (address - 0x4000) + Go.uint32 (RomBank b * 0x4000)).

(** [(0x2000*r.RamBank)+uint32(address-0xA000)] *)
Definition ramIndex (RamBank address : Z) : Z :=
  Go.uint32 (Go.uint32 (0x2000 * RamBank) + Go.uint16 (address - 0xA000)).

(** *** MBC1 *)

Record MBC1 := mkMBC1 {
  MBC1_BaseMBC : BaseMBC;
  MBC1_RamBank : Z;
  MBC1_RomBanking : bool
}.

Definition NewMBC1 (data : list Z) : MBC1 :=
  mkMBC1 (mkBaseMBC data 1 (Go.make 0x8000) false) 0 false.

Definition MBC1_Read (r : MBC1) (address : Z) : option Z :=
  if address <? 0x4000 then Go.index (Rom (MBC1_BaseMBC r)) address
  else if address <? 0x8000 then
    Go.index (Rom (MBC1_BaseMBC r)) (romIndex (MBC1_BaseMBC r) address)
  else
    Go.index (Ram (MBC1_BaseMBC r)) (ramIndex (MBC1_RamBank r) address).

Definition MBC1_updateRomBankIfZero (r : MBC1) : MBC1 :=
  let bank := RomBank (MBC1_BaseMBC r) in
  if (bank =? 0x00) || (bank =? 0x20) || (bank =? 0x40) || (bank =? 0x60)
  then mkMBC1 (set_RomBank (MBC1_BaseMBC r) (Go.uint32 (bank + 1)))
              (MBC1_RamBank r) (MBC1_RomBanking r)
  else r.

Definition MBC1_WriteROM (r : MBC1) (address value : Z) : MBC1 :=
  let b := MBC1_BaseMBC r in
  if address <? 0x2000 then
    if Z.land value 0xF =? 0xA then
      mkMBC1 (set_RamEnabled b true) (MBC1_RamBank r) (MBC1_RomBanking r)
    else if Z.land value 0xF =? 0x0 then
      mkMBC1 (set_RamEnabled b false) (MBC1_RamBank r) (MBC1_RomBanking r)
    else r
  else if address <? 0x4000 then
    MBC1_updateRomBankIfZero
      (mkMBC1 (set_RomBank b (Z.lor (Z.land (RomBank b) 0xe0)
                                    (Z.land value 0x1f)))
              (MBC1_RamBank r) (MBC1_RomBanking r))
  else if address <? 0x6000 then
    if MBC1_RomBanking r then
      MBC1_updateRomBankIfZero
        (mkMBC1 (set_RomBank b (Z.lor (Z.land (RomBank b) 0x1F)
                                      (Z.land value 0xe0)))
                (MBC1_RamBank r) (MBC1_RomBanking r))
    else mkMBC1 b (Z.land value 0x3) (MBC1_RomBanking r)
  else if address <? 0x8000 then
    if Z.land value 0x1 =? 0x00 then mkMBC1 b 0 true
    else mkMBC1 (set_RomBank b (Z.land (RomBank b) 0x1F))
                (MBC1_RamBank r) false
  else r.

Definition MBC1_WriteRAM (r : MBC1) (address value : Z) : option MBC1 :=
  if RamEnabled (MBC1_BaseMBC r) then
    ram ← Go.assign (Ram (MBC1_BaseMBC r))
                    (ramIndex (MBC1_RamBank r) address) value;
    Some (mkMBC1 (set_Ram (MBC1_BaseMBC r) ram)
                 (MBC1_RamBank r) (MBC1_RomBanking r))
  else Some r.

(** *** MBC2 *)

Record MBC2 := mkMBC2 { MBC2_BaseMBC : BaseMBC }.

Definition NewMBC2 (data : list Z) : MBC2 :=
  mkMBC2 (mkBaseMBC data 1 (Go.make 0x2000) false).

Definition MBC2_Read (r : MBC2) (address : Z) : option Z :=
  if address <? 0x4000 then Go.index (Rom (MBC2_BaseMBC r)) address
  else if address <? 0x8000 then
    Go.index (Rom (MBC2_BaseMBC r)) (romIndex (MBC2_BaseMBC r) address)
  else Go.index (Ram (MBC2_BaseMBC r)) (Go.uint16 (address - 0xA000)).

Definition MBC2_WriteROM (r : MBC2) (address value : Z) : MBC2 :=
  let b := MBC2_BaseMBC r in
  if address <? 0x2000 then
    if Z.land address 0x100 =? 0 then
      if Z.land value 0xF =? 0xA then mkMBC2 (set_RamEnabled b true)
      else if Z.land value 0xF =? 0x0 then mkMBC2 (set_RamEnabled b false)
      else r
    else r
  else if address <? 0x4000 then
    if Z.land address 0x100 =? 0x100 then
      let bank := Z.land value 0xF in
      if (bank =? 0x00) || (bank =? 0x20) || (bank =? 0x40) || (bank =? 0x60)
      then mkMBC2 (set_RomBank b (Go.uint32 (bank + 1)))
      else mkMBC2 (set_RomBank b bank)
    else r
  else r.

Definition MBC2_WriteRAM (r : MBC2) (address value : Z) : option MBC2 :=
  if RamEnabled (MBC2_BaseMBC r) then
    ram ← Go.assign (Ram (MBC2_BaseMBC r))
                    (Go.uint16 (address - 0xA000)) (Z.land value 0xF);
    Some (mkMBC2 (set_Ram (MBC2_BaseMBC r) ram))
  else Some r.

(** *** MBC5 *)

Record MBC5 := mkMBC5 { MBC5_BaseMBC : BaseMBC; MBC5_RamBank : Z }.

Definition NewMBC5 (data : list Z) : MBC5 :=
  mkMBC5 (mkBaseMBC data 1 (Go.make 0x20000) false) 0.

Definition MBC5_Read (r : MBC5) (address : Z) : option Z :=
  if address <? 0x4000 then Go.index (Rom (MBC5_BaseMBC r)) address
  else if address <? 0x8000 then
    Go.index (Rom (MBC5_BaseMBC r)) (romIndex (MBC5_BaseMBC r) address)
  else
    Go.index (Ram (MBC5_BaseMBC r)) (ramIndex (MBC5_RamBank r) address).

Definition MBC5_WriteROM (r : MBC5) (address value : Z) : MBC5 :=
  let b := MBC5_BaseMBC r in
  if address <? 0x2000 then
    if Z.land value 0xF =? 0xA then
      mkMBC5 (set_RamEnabled b true) (MBC5_RamBank r)
    else if Z.land value 0xF =? 0x0 then
      mkMBC5 (set_RamEnabled b false) (MBC5_RamBank r)
    else r
  else if address <? 0x3000 then
    mkMBC5 (set_RomBank b (Z.lor (Z.land (RomBank b) 0x100) value))
           (MBC5_RamBank r)
  else if address <? 0x4000 then
    mkMBC5 (set_RomBank b
              (Z.lor (Z.land (RomBank b) 0xFF)
                     (Go.uint32 (Z.shiftl (Z.land value 0x01) 8))))
           (MBC5_RamBank r)
  else if address <? 0x6000 then mkMBC5 b (Z.land value 0xF)
  else r.

Definition MBC5_WriteRAM (r : MBC5) (address value : Z) : option MBC5 :=
  if RamEnabled (MBC5_BaseMBC r) then
    ram ← Go.assign (Ram (MBC5_BaseMBC r))
                    (ramIndex (MBC5_RamBank r) address) value;
    Some (mkMBC5 (set_Ram (MBC5_BaseMBC r) ram) (MBC5_RamBank r))
  else Some r.

(** *** MBC3 *)

Record MBC3 := mkMBC3 {
  MBC3_BaseMBC : BaseMBC;
  MBC3_RamBank : Z;
  MBC3_Rtc : list Z;
  MBC3_LatchedRtc : list Z;
  MBC3_Latched : bool
}.

Definition NewMBC3 (data : list Z) : MBC3 :=
  mkMBC3 (mkBaseMBC data 1 (Go.make 0x8000) false) 0
         (Go.make 0x10) (Go.make 0x10) false.

Definition MBC3_Read (r : MBC3) (address : Z) : option Z :=
  if address <? 0x4000 then Go.index (Rom (MBC3_BaseMBC r)) address
  else if address <? 0x8000 then
    Go.index (Rom (MBC3_BaseMBC r)) (romIndex (MBC3_BaseMBC r) address)
  else if 0x4 <=? MBC3_RamBank r then
    if MBC3_Latched r then Go.index (MBC3_LatchedRtc r) (MBC3_RamBank r)
    else Go.index (MBC3_Rtc r) (MBC3_RamBank r)
  else
    Go.index (Ram (MBC3_BaseMBC r)) (ramIndex (MBC3_RamBank r) address).

Definition MBC3_WriteROM (r : MBC3) (address value : Z) : MBC3 :=
  let b := MBC3_BaseMBC r in
  if address <? 0x2000 then
    mkMBC3 (set_RamEnabled b (negb (Z.land value 0xA =? 0)))
           (MBC3_RamBank r) (MBC3_Rtc r) (MBC3_LatchedRtc r) (MBC3_Latched r)
  else if address <? 0x4000 then
    let bank := Z.land value 0x7F in
    mkMBC3 (set_RomBank b (if bank =? 0x00 then Go.uint32 (bank + 1)
                           else bank))
           (MBC3_RamBank r) (MBC3_Rtc r) (MBC3_LatchedRtc r) (MBC3_Latched r)
  else if address <? 0x6000 then
    mkMBC3 b value (MBC3_Rtc r) (MBC3_LatchedRtc r) (MBC3_Latched r)
  else if address <? 0x8000 then
    if value =? 0x1 then
      mkMBC3 b (MBC3_RamBank r) (MBC3_Rtc r) (MBC3_LatchedRtc r) false
    else if value =? 0x0 then
      mkMBC3 b (MBC3_RamBank r)
             (Go.copy (MBC3_Rtc r) (MBC3_LatchedRtc r))
             (MBC3_LatchedRtc r) true
    else r
  else r.

Definition MBC3_WriteRAM (r : MBC3) (address value : Z) : option MBC3 :=
  if RamEnabled (MBC3_BaseMBC r) then
    if 0x4 <=? MBC3_RamBank r then
      rtc ← Go.assign (MBC3_Rtc r) (MBC3_RamBank r) value;
      Some (mkMBC3 (MBC3_BaseMBC r) (MBC3_RamBank r) rtc
                   (MBC3_LatchedRtc r) (MBC3_Latched r))
    else
      ram ← Go.assign (Ram (MBC3_BaseMBC r))
                      (ramIndex (MBC3_RamBank r) address) value;
      Some (mkMBC3 (set_Ram (MBC3_BaseMBC r) ram) (MBC3_RamBank r)
                   (MBC3_Rtc r) (MBC3_LatchedRtc r) (MBC3_Latched r))
  else Some r.

(** *** The [BankingController] interface

    The Go interface is implemented by the four structs above; a value of it
    is one of them. *)

Inductive BankingController :=
| mbc1 (r : MBC1)
| mbc2 (r : MBC2)
| mbc3 (r : MBC3)
| mbc5 (r : MBC5).

Definition base (c : BankingController) : BaseMBC :=
  match c with
  | mbc1 r => MBC1_BaseMBC r
  | mbc2 r => MBC2_BaseMBC r
  | mbc3 r => MBC3_BaseMBC r
  | mbc5 r => MBC5_BaseMBC r
  end.

Definition Read (c : BankingController) (address : Z) : option Z :=
  match c with
  | mbc1 r => MBC1_Read r address
  | mbc2 r => MBC2_Read r address
  | mbc3 r => MBC3_Read r address
  | mbc5 r => MBC5_Read r address
  end.

Definition WriteROM (c : BankingController) (address value : Z)
  : BankingController :=
  match c with
  | mbc1 r => mbc1 (MBC1_WriteROM r address value)
  | mbc2 r => mbc2 (MBC2_WriteROM r address value)
  | mbc3 r => mbc3 (MBC3_WriteROM r address value)
  | mbc5 r => mbc5 (MBC5_WriteROM r address value)
  end.

Definition WriteRAM (c : BankingController) (address value : Z)
  : option BankingController :=
  match c with
  | mbc1 r => mbc1 <$> MBC1_WriteRAM r address value
  | mbc2 r => mbc2 <$> MBC2_WriteRAM r address value
  | mbc3 r => mbc3 <$> MBC3_WriteRAM r address value
  | mbc5 r => mbc5 <$> MBC5_WriteRAM r address value
  end.

(** The states a controller can be in: the ones its constructor returns,
    and the ones [WriteROM] and a [WriteRAM] that did not panic lead to,
    called with a 16-bit address and a byte. *)
Inductive reachable : BankingController → Prop :=
| reach_NewMBC1 data : reachable (mbc1 (NewMBC1 data))
| reach_NewMBC2 data : reachable (mbc2 (NewMBC2 data))
| reach_NewMBC3 data : reachable (mbc3 (NewMBC3 data))
| reach_NewMBC5 data : reachable (mbc5 (NewMBC5 data))
| reach_WriteROM c address value :
    reachable c → 0 ≤ address < 0x10000 → 0 ≤ value < 0x100 →
    reachable (WriteROM c address value)
| reach_WriteRAM c address value c' :
    reachable c → 0 ≤ address < 0x10000 → 0 ≤ value < 0x100 →
    WriteRAM c address value = Some c' →
    reachable c'.

(** *** Save data and save states

    [GetSaveData] returns a fresh slice with the content of the RAM buffer;
    [LoadSaveData] makes the slice it is given the RAM buffer. *)

Definition GetSaveData (c : BankingController) : list Z :=
  Go.copy (Go.make (Z.of_nat (length (Ram (base c))))) (Ram (base c)).

Definition LoadSaveData (c : BankingController) (data : list Z)
  : BankingController :=
  match c with
  | mbc1 r => mbc1 (mkMBC1 (set_Ram (MBC1_BaseMBC r) data)
                           (MBC1_RamBank r) (MBC1_RomBanking r))
  | mbc2 r => mbc2 (mkMBC2 (set_Ram (MBC2_BaseMBC r) data))
  | mbc3 r => mbc3 (mkMBC3 (set_Ram (MBC3_BaseMBC r) data) (MBC3_RamBank r)
                           (MBC3_Rtc r) (MBC3_LatchedRtc r) (MBC3_Latched r))
  | mbc5 r => mbc5 (mkMBC5 (set_Ram (MBC5_BaseMBC r) data) (MBC5_RamBank r))
  end.

(** The sink of [SaveState] and the source of [LoadState] are byte sequences
    held in memory.  [binary.Read] of a byte takes one byte and fails at the
    end of the stream; [reader.Read(p)] fills [p] with as many bytes as the
    stream still has, up to [len(p)], and fails at the end of the stream when
    [p] is not empty, as the [Read] of a [bytes.Buffer] does.  A load returns
    what is left of the stream. *)
Definition read_byte (reader : list Z) : option (Z * list Z) :=
  match reader with
  | b :: reader' => Some (b, reader')
  | [] => None
  end.

Definition reader_Read (p reader : list Z) : option (list Z * list Z) :=
  match p, reader with
  | [], _ => Some (p, reader)
  | _, [] => None
  | _, _ => Some (Go.copy p reader, drop (length p) reader)
  end.

(** [BaseMBC.SaveState] and [BaseMBC.LoadState] are declared outside the
    sources at hand; they are the operations of this interface. *)
Class BaseMBCMethods := {
  BaseMBC_SaveState : BaseMBC → option (list Z);
  BaseMBC_LoadState : BaseMBC → list Z → option (BaseMBC * list Z)
}.

Definition MBC1_SaveState `{BaseMBCMethods} (r : MBC1) : option (list Z) :=
  b ← BaseMBC_SaveState (MBC1_BaseMBC r);
  let bnk := if MBC1_RomBanking r then 1 else 0 in
  Some (b ++ [Go.uint8 bnk] ++ [Go.uint8 (MBC1_RamBank r)]).

Definition MBC1_LoadState `{BaseMBCMethods} (r : MBC1) (reader : list Z)
  : option (MBC1 * list Z) :=
  '(b, reader) ← BaseMBC_LoadState (MBC1_BaseMBC r) reader;
  '(bnk, reader) ← read_byte reader;
  '(tmp, reader) ← read_byte reader;
  Some (mkMBC1 b tmp (bnk =? 1), reader).

Definition MBC3_SaveState `{BaseMBCMethods} (r : MBC3) : option (list Z) :=
  b ← BaseMBC_SaveState (MBC3_BaseMBC r);
  let ltch := if MBC3_Latched r then 1 else 0 in
  Some (b ++ [Go.uint8 (MBC3_RamBank r)] ++ MBC3_Rtc r ++ MBC3_LatchedRtc r
          ++ [Go.uint8 ltch]).

Definition MBC3_LoadState `{BaseMBCMethods} (r : MBC3) (reader : list Z)
  : option (MBC3 * list Z) :=
  '(b, reader) ← BaseMBC_LoadState (MBC3_BaseMBC r) reader;
  '(tmp, reader) ← read_byte reader;
  '(rtc, reader) ← reader_Read (MBC3_Rtc r) reader;
  '(latched, reader) ← reader_Read (MBC3_LatchedRtc r) reader;
  '(ltch, reader) ← read_byte reader;
  Some (mkMBC3 b tmp rtc latched (ltch =? 1), reader).

(** A sequence of bank-select and RAM writes; [None] when a write panics. *)
Inductive write :=
| ToROM (address value : Z)
| ToRAM (address value : Z).

Fixpoint run (c : BankingController) (ws : list write)
  : option BankingController :=
  match ws with
  | [] => Some c
  | ToROM address value :: ws' => run (WriteROM c address value) ws'
  | ToRAM address value :: ws' =>
      c' ← WriteRAM c address value; run c' ws'
  end.


End cart.

(** ** Package [gb] *)

Module gb.

(** *** The address space

    [Memory] is declared outside the sources at hand.  The engine reads and
    writes its [HighRAM [0x100]byte] array directly and calls its methods
    [Write], [Read], [ReadHighRam], [SaveState] and [LoadState].  The array
    is modelled as it is; everything else the struct holds (cartridge, work
    RAM, video RAM, ...) is the component [devices] of a type [D], and the
    methods are the operations of the interface [MemoryMethods], about
    which the theorems state what they assume. *)
Record Memory (D : Type) := mkMemory {
  HighRAM : list Z;
  devices : D
}.
Global Arguments mkMemory {D} _ _.
Global Arguments HighRAM {D} _.
Global Arguments devices {D} _.

Class MemoryMethods (D : Type) := {
  Memory_Write : Memory D → Z → Z → Memory D;
  Memory_Read : Memory D → Z → Z;
  Memory_ReadHighRam : Memory D → Z → Z;
  (** the bytes [Memory.SaveState] appends to the stream, or an error *)
  Memory_SaveState : Memory D → option (list Z);
  (** [Memory.LoadState] on the rest of the stream, or an error *)
  Memory_LoadState : Memory D → list Z → option (Memory D)
}.

(** [mem.HighRAM[i]] and [mem.HighRAM[i] = v] for a constant [i] below
    [0x100], which the array type keeps in range. *)
Definition HighRAM_at {D} (mem : Memory D) (i : Z) : Z :=
  HighRAM mem !!! Z.to_nat i.
Definition HighRAM_assign {D} (mem : Memory D) (i v : Z) : Memory D :=
  mkMemory (<[Z.to_nat i := v]> (HighRAM mem)) (devices mem).

(** Modelled from the spec: the register addresses [DIV], [TIMA], [TMA] and
    [TAC] are constants declared outside the sources at hand; the spec gives
    divider 0xFF04, timer counter 0xFF05, timer modulo 0xFF06 and timer
    control 0xFF07. *)
Definition DIV : Z := 0xFF04.
Definition TIMA : Z := 0xFF05.
Definition TMA : Z := 0xFF06.
Definition TAC : Z := 0xFF07.

(** *** The register file *)

(** Modelled from the spec: the [register] type is declared outside the
    sources at hand; a register pair is a 16-bit value that [HiLo] returns
    and [Set] replaces. *)
Record register := mkRegister { reg_value : Z }.
Definition register_HiLo (reg : register) : Z := reg_value reg.
Definition register_Set (reg : register) (v : Z) : register := mkRegister v.

(** The fields of [CPU] that the engine uses. *)
Record CPU := mkCPU {
  AF : register;
  BC : register;
  DE : register;
  HL : register;
  PC : Z;
  SP : register;
  Divider : Z
}.

Definition set_PC (c : CPU) (x : Z) : CPU :=
  mkCPU (AF c) (BC c) (DE c) (HL c) x (SP c) (Divider c).
Definition set_SP (c : CPU) (x : register) : CPU :=
  mkCPU (AF c) (BC c) (DE c) (HL c) (PC c) x (Divider c).
Definition set_Divider (c : CPU) (x : Z) : CPU :=
  mkCPU (AF c) (BC c) (DE c) (HL c) (PC c) (SP c) x.

(** *** The machine

    The fields of [Gameboy] that timers, interrupts, the stack and the save
    state use. *)
Record Gameboy (D : Type) := mkGameboy {
  gb_Memory : Memory D;
  gb_CPU : CPU;
  timerCounter : Z;
  interruptsEnabling : bool;
  interruptsOn : bool;
  halted : bool;
  thisCpuTicks : Z
}.
Global Arguments mkGameboy {D} _ _ _ _ _ _ _.
Global Arguments gb_Memory {D} _.
Global Arguments gb_CPU {D} _.
Global Arguments timerCounter {D} _.
Global Arguments interruptsEnabling {D} _.
Global Arguments interruptsOn {D} _.
Global Arguments halted {D} _.
Global Arguments thisCpuTicks {D} _.

Section Engine.
Context {D : Type} `{MemoryMethods D}.

Definition set_Memory (gb : Gameboy D) (x : Memory D) : Gameboy D :=
  mkGameboy x (gb_CPU gb) (timerCounter gb) (interruptsEnabling gb)
            (interruptsOn gb) (halted gb) (thisCpuTicks gb).
Definition set_CPU (gb : Gameboy D) (x : CPU) : Gameboy D :=
  mkGameboy (gb_Memory gb) x (timerCounter gb) (interruptsEnabling gb)
            (interruptsOn gb) (halted gb) (thisCpuTicks gb).
Definition set_timerCounter (gb : Gameboy D) (x : Z) : Gameboy D :=
  mkGameboy (gb_Memory gb) (gb_CPU gb) x (interruptsEnabling gb)
            (interruptsOn gb) (halted gb) (thisCpuTicks gb).
Definition set_interruptsEnabling (gb : Gameboy D) (x : bool) : Gameboy D :=
  mkGameboy (gb_Memory gb) (gb_CPU gb) (timerCounter gb) x
            (interruptsOn gb) (halted gb) (thisCpuTicks gb).
Definition set_interruptsOn (gb : Gameboy D) (x : bool) : Gameboy D :=
  mkGameboy (gb_Memory gb) (gb_CPU gb) (timerCounter gb)
            (interruptsEnabling gb) x (halted gb) (thisCpuTicks gb).
Definition set_halted (gb : Gameboy D) (x : bool) : Gameboy D :=
  mkGameboy (gb_Memory gb) (gb_CPU gb) (timerCounter gb)
            (interruptsEnabling gb) (interruptsOn gb) x (thisCpuTicks gb).

(** **** Timers *)

Definition isClockEnabled (gb : Gameboy D) : bool :=
  bits.Test (HighRAM_at (gb_Memory gb) 0x07) 2.

Definition getClockFreq (gb : Gameboy D) : Z :=
  Z.land (HighRAM_at (gb_Memory gb) 0x07) 0x3.

Definition getClockFreqCount (gb : Gameboy D) : Z :=
  match getClockFreq gb with
  | 0 => 1024
  | 1 => 16
  | 2 => 64
  | _ => 256
  end.

Definition dividerRegister (gb : Gameboy D) (cycles : Z) : Gameboy D :=
  let gb := set_CPU gb (set_Divider (gb_CPU gb)
              (Go.int (Divider (gb_CPU gb) + cycles))) in
  if 255 <=? Divider (gb_CPU gb) then
    let gb := set_CPU gb (set_Divider (gb_CPU gb)
                (Go.int (Divider (gb_CPU gb) - 255))) in
    set_Memory gb
      (HighRAM_assign (gb_Memory gb) (DIV - 0xFF00)
         (Go.uint8 (HighRAM_at (gb_Memory gb) (DIV - 0xFF00) + 1)))
  else gb.

Definition requestInterrupt (gb : Gameboy D) (interrupt : Z) : Gameboy D :=
  let req := Z.lor (HighRAM_at (gb_Memory gb) 0x0F) 0xE0 in
  let req := bits.Set_ req interrupt in
  set_Memory gb (Memory_Write (gb_Memory gb) 0xFF0F req).

(** The loop [for gb.timerCounter >= freq { ... }] of [updateTimers];
    [fuel] bounds the number of iterations and [None] means that it ran
    out before the loop ended. *)
Fixpoint timerLoop (fuel : nat) (freq : Z) (gb : Gameboy D)
  : option (Gameboy D) :=
  if freq <=? timerCounter gb then
    match fuel with
    | O => None
    | S fuel' =>
        let gb := set_timerCounter gb (Go.int (timerCounter gb - freq)) in
        let tima := HighRAM_at (gb_Memory gb) 0x05 in
        let gb :=
          if tima =? 0xFF then
            let gb := set_Memory gb
                        (HighRAM_assign (gb_Memory gb) (TIMA - 0xFF00)
                           (HighRAM_at (gb_Memory gb) 0x06)) in
            requestInterrupt gb 2
          else
            set_Memory gb
              (HighRAM_assign (gb_Memory gb) (TIMA - 0xFF00)
                 (Go.uint8 (tima + 1))) in
        timerLoop fuel' freq gb
    end
  else Some gb.

Definition updateTimers (fuel : nat) (gb : Gameboy D) (cycles : Z)
  : option (Gameboy D) :=
  let gb := dividerRegister gb cycles in
  if isClockEnabled gb then
    let gb := set_timerCounter gb (Go.int (timerCounter gb + cycles)) in
    let freq := getClockFreqCount gb in
    timerLoop fuel freq gb
  else Some gb.

(** **** The stack *)

Definition pushStack (gb : Gameboy D) (address : Z) : Gameboy D :=
  let sp := register_HiLo (SP (gb_CPU gb)) in
  let gb := set_Memory gb
              (Memory_Write (gb_Memory gb) (Go.uint16 (sp - 1))
                 (Go.uint8 (Z.shiftr (Go.uint16 (Z.land address 0xFF00)) 8)))
  in
  let gb := set_Memory gb
              (Memory_Write (gb_Memory gb) (Go.uint16 (sp - 2))
                 (Go.uint8 (Z.land address 0xFF))) in
  set_CPU gb (set_SP (gb_CPU gb)
                (register_Set (SP (gb_CPU gb))
                   (Go.uint16 (register_HiLo (SP (gb_CPU gb)) - 2)))).

Definition popStack (gb : Gameboy D) : Z * Gameboy D :=
  let sp := register_HiLo (SP (gb_CPU gb)) in
  let byte1 := Go.uint16 (Memory_Read (gb_Memory gb) sp) in
  let byte2 :=
    Go.uint16 (Z.shiftl
                 (Go.uint16 (Memory_Read (gb_Memory gb)
                               (Go.uint16 (sp + 1)))) 8) in
  let gb := set_CPU gb (set_SP (gb_CPU gb)
              (register_Set (SP (gb_CPU gb))
                 (Go.uint16 (register_HiLo (SP (gb_CPU gb)) + 2)))) in
  (Z.lor byte1 byte2, gb).

(** **** Interrupts *)

(** A Go map: a key that is absent reads as the zero value. *)
Definition interruptAddresses : gmap Z Z :=
  list_to_map [(0, 0x40); (1, 0x48); (2, 0x50); (3, 0x58); (4, 0x60)].

Definition serviceInterrupt (gb : Gameboy D) (interrupt : Z) : Gameboy D :=
  if negb (interruptsOn gb) && halted gb then set_halted gb false
  else
    let gb := set_interruptsOn gb false in
    let gb := set_halted gb false in
    let req := Memory_ReadHighRam (gb_Memory gb) 0xFF0F in
    let req := bits.Reset req interrupt in
    let gb := set_Memory gb (Memory_Write (gb_Memory gb) 0xFF0F req) in
    let gb := pushStack gb (PC (gb_CPU gb)) in
    set_CPU gb (set_PC (gb_CPU gb)
                  (default 0 (interruptAddresses !! interrupt))).

(** The loop [for i = 0; i < 5; i++] of [doInterrupts], entered at line
    [i] with [n] lines left to look at. *)
Fixpoint scanInterrupts (n : nat) (i req enabled : Z) (gb : Gameboy D)
  : Z * Gameboy D :=
  match n with
  | O => (0, gb)
  | S n' =>
      if bits.Test req i && bits.Test enabled i
      then (20, serviceInterrupt gb i)
      else scanInterrupts n' (i + 1) req enabled gb
  end.

Definition doInterrupts (gb : Gameboy D) : Z * Gameboy D :=
  if interruptsEnabling gb then
    (0, set_interruptsEnabling (set_interruptsOn gb true) false)
  else if negb (interruptsOn gb) && negb (halted gb) then (0, gb)
  else
    let req := Z.lor (HighRAM_at (gb_Memory gb) 0x0F) 0xE0 in
    let enabled := HighRAM_at (gb_Memory gb) 0xFF in
    if 0 <? req then scanInterrupts 5 0 req enabled gb
    else (0, gb).

(** **** The save state

    The sink and the source are byte sequences.  [binary.Write] appends
    the little-endian bytes of a value; [binary.Read] takes as many bytes
    as the value has and fails on a stream that is too short. *)

Definition le16 (x : Z) : list Z :=
  [Z.land x 0xFF; Z.land (Z.shiftr x 8) 0xFF].
Definition le32 (x : Z) : list Z :=
  [Z.land x 0xFF; Z.land (Z.shiftr x 8) 0xFF;
   Z.land (Z.shiftr x 16) 0xFF; Z.land (Z.shiftr x 24) 0xFF].

Definition read_uint8 (r : list Z) : option (Z * list Z) :=
  match r with
  | b0 :: r' => Some (b0, r')
  | _ => None
  end.
Definition read_uint16 (r : list Z) : option (Z * list Z) :=
  match r with
  | b0 :: b1 :: r' => Some (Z.lor b0 (Z.shiftl b1 8), r')
  | _ => None
  end.
Definition read_int32 (r : list Z) : option (Z * list Z) :=
  match r with
  | b0 :: b1 :: b2 :: b3 :: r' =>
      Some (Go.int32 (Z.lor (Z.lor b0 (Z.shiftl b1 8))
                            (Z.lor (Z.shiftl b2 16) (Z.shiftl b3 24))), r')
  | _ => None
  end.

(** The flag byte [SaveState] writes. *)
Definition saveInterrupts (gb : Gameboy D) : Z :=
  let ints := 0 in
  let ints := if interruptsEnabling gb then 1 else ints in
  let ints := if interruptsOn gb then Z.lor ints 2 else ints in
  let ints := if halted gb then Z.lor ints 3 else ints in
  ints.

Definition SaveState (gb : Gameboy D) : option (list Z) :=
  let c := gb_CPU gb in
  mem ← Memory_SaveState (gb_Memory gb);
  Some (le16 (register_HiLo (AF c)) ++ le16 (register_HiLo (BC c)) ++
        le16 (register_HiLo (DE c)) ++ le16 (register_HiLo (HL c)) ++
        le16 (PC c) ++ le16 (register_HiLo (SP c)) ++
        le32 (Go.int32 (timerCounter gb)) ++
        le32 (Go.int32 (thisCpuTicks gb)) ++
        [saveInterrupts gb] ++ mem).

(** The three flags [LoadState] takes from the flag byte. *)
Definition loadInterrupts (gb : Gameboy D) (ints : Z) : Gameboy D :=
  let gb := set_interruptsEnabling gb (negb (Z.land ints 1 =? 0)) in
  let gb := set_interruptsOn gb (negb (Z.land ints 2 =? 0)) in
  set_halted gb (negb (Z.land ints 4 =? 0)).

Definition LoadState (gb : Gameboy D) (reader : list Z)
  : option (Gameboy D) :=
  '(af, reader) ← read_uint16 reader;
  '(bc, reader) ← read_uint16 reader;
  '(de, reader) ← read_uint16 reader;
  '(hl, reader) ← read_uint16 reader;
  '(pc, reader) ← read_uint16 reader;
  '(sp, reader) ← read_uint16 reader;
  let c := gb_CPU gb in
  let gb := set_CPU gb
              (mkCPU (register_Set (AF c) af) (register_Set (BC c) bc)
                     (register_Set (DE c) de) (register_Set (HL c) hl)
                     pc (register_Set (SP c) sp) (Divider c)) in
  '(tmp32, reader) ← read_int32 reader;
  let gb := set_timerCounter gb (Go.int tmp32) in
  '(tmp32, reader) ← read_int32 reader;
  let gb := mkGameboy (gb_Memory gb) (gb_CPU gb) (timerCounter gb)
                      (interruptsEnabling gb) (interruptsOn gb)
                      (halted gb) (Go.int tmp32) in
  '(ints, reader) ← read_uint8 reader;
  let gb := loadInterrupts gb ints in
  mem ← Memory_LoadState (gb_Memory gb) reader;
  Some (set_Memory gb mem).

End Engine.

(** *** A flat address space

    An instance of the interface on which the machine can be run: the
    addresses from 0xFF00 live in [HighRAM], every other address is a byte
    cell of its own, and the save state of the memory is [HighRAM]. *)
Definition flat_Write (m : Memory (Z → Z)) (address value : Z)
  : Memory (Z → Z) :=
  if 0xFF00 <=? address then HighRAM_assign m (address - 0xFF00) value
  else mkMemory (HighRAM m)
                (λ a, if a =? address then value else devices m a).
Definition flat_Read (m : Memory (Z → Z)) (address : Z) : Z :=
  if 0xFF00 <=? address then HighRAM_at m (address - 0xFF00)
  else devices m address.
Definition flat_SaveState (m : Memory (Z → Z)) : option (list Z) :=
  Some (HighRAM m).
Definition flat_LoadState (m : Memory (Z → Z)) (reader : list Z)
  : option (Memory (Z → Z)) :=
  if decide (0x100 ≤ length reader)%nat
  then Some (mkMemory (take 0x100 reader) (devices m))
  else None.

#[global] Instance flat : MemoryMethods (Z → Z) := {
  Memory_Write := flat_Write;
  Memory_Read := flat_Read;
  Memory_ReadHighRam := flat_Read;
  Memory_SaveState := flat_SaveState;
  Memory_LoadState := flat_LoadState
}.

(** A machine on the flat address space: all memory zero but for the
    registers given, program counter [pc], stack pointer [sp]. *)
Definition flat_machine (if_ ie tima tma tac : Z) (pc sp : Z)
    (enabling on halt : bool) : Gameboy (Z → Z) :=
  let ram := <[5%nat := tima]> (<[6%nat := tma]> (<[7%nat := tac]>
               (<[0x0F%nat := if_]> (<[0xFF%nat := ie]>
                  (replicate 0x100 0))))) in
  mkGameboy (mkMemory ram (λ _, 0))
            (mkCPU (mkRegister 0) (mkRegister 0) (mkRegister 0)
                   (mkRegister 0) pc (mkRegister sp) 0)
            0 enabling on halt 0.

(** *** Speed, pause and joypad

    The fields [currentSpeed], [prepareSpeed], [paused] and [inputMask] of
    [Gameboy] are kept in a record of their own beside the machine. *)
Record Controls := mkControls {
  currentSpeed : Z;
  prepareSpeed : bool;
  paused : bool;
  inputMask : Z
}.

Definition getSpeed (k : Controls) : Z :=
  Go.int (Go.uint8 (currentSpeed k + 1)).

Definition checkSpeedSwitch {D} (gb : Gameboy D) (k : Controls)
  : Gameboy D * Controls :=
  if prepareSpeed k then
    let k := mkControls (currentSpeed k) false (paused k) (inputMask k) in
    let k := if currentSpeed k =? 0
             then mkControls 1 (prepareSpeed k) (paused k) (inputMask k)
             else mkControls 0 (prepareSpeed k) (paused k) (inputMask k) in
    (mkGameboy (gb_Memory gb) (gb_CPU gb) (timerCounter gb)
               (interruptsEnabling gb) (interruptsOn gb) false
               (thisCpuTicks gb), k)
  else (gb, k).

Definition togglePaused (k : Controls) : Controls :=
  mkControls (currentSpeed k) (prepareSpeed k) (negb (paused k)) (inputMask k).

Definition joypadValue (k : Controls) (current : Z) : Z :=
  let in_ :=
    if bits.Test current 4 then Z.land (inputMask k) 0xF
    else if bits.Test current 5
         then Z.land (Z.shiftr (inputMask k) 4) 0xF
         else 0xF in
  Z.lor (Z.lor current 0xc0) in_.


(** *** An address space that routes to the cartridge

    Modelled from the spec: [Memory.Write] and [Memory.Read] are declared
    outside the sources at hand.  The spec's address space delegates the
    cartridge ROM window 0x0000-0x7FFF and the cartridge RAM window
    0xA000-0xBFFF to the banking controller (a write below 0x8000 is a
    [WriteROM], with bank-select effects only), keeps the addresses from
    0xFF00 in [HighRAM] and every other address in RAM of its own.  A
    cartridge access that panics is outside this model: such a read gives 0
    and such a write is dropped. *)
Definition routed_Write (m : Memory (cart.BankingController * (Z → Z)))
    (address value : Z) : Memory (cart.BankingController * (Z → Z)) :=
  let c := (devices m).1 in
  let ram := (devices m).2 in
  if address <? 0x8000 then
    mkMemory (HighRAM m) (cart.WriteROM c address value, ram)
  else if (0xA000 <=? address) && (address <? 0xC000) then
    mkMemory (HighRAM m) (default c (cart.WriteRAM c address value), ram)
  else if 0xFF00 <=? address then HighRAM_assign m (address - 0xFF00) value
  else mkMemory (HighRAM m) (c, λ a, if a =? address then value else ram a).
Definition routed_Read (m : Memory (cart.BankingController * (Z → Z)))
    (address : Z) : Z :=
  let c := (devices m).1 in
  let ram := (devices m).2 in
  if address <? 0x8000 then default 0 (cart.Read c address)
  else if (0xA000 <=? address) && (address <? 0xC000) then
    default 0 (cart.Read c address)
  else if 0xFF00 <=? address then HighRAM_at m (address - 0xFF00)
  else ram address.

Definition routed : MemoryMethods (cart.BankingController * (Z → Z)) := {|
  Memory_Write := routed_Write;
  Memory_Read := routed_Read;
  Memory_ReadHighRam := routed_Read;
  Memory_SaveState := λ m, Some (HighRAM m);
  Memory_LoadState := λ m reader,
    if decide (0x100 ≤ length reader)%nat
    then Some (mkMemory (take 0x100 reader) (devices m))
    else None
|}.

(** A machine on the routed address space with the cartridge [c]: [HighRAM]
    and the RAM of the address space zero, program counter [pc], stack
    pointer [sp], interrupts off, not halted. *)
Definition routed_machine (c : cart.BankingController) (pc sp : Z)
  : Gameboy (cart.BankingController * (Z → Z)) :=
  mkGameboy (mkMemory (replicate 0x100 0) (c, λ _, 0))
            (mkCPU (mkRegister 0) (mkRegister 0) (mkRegister 0)
                   (mkRegister 0) pc (mkRegister sp) 0)
            0 false false false 0.

End gb.

(** * Properties *)

Import cart.

(** ** Arithmetic on bytes

    Facts about masks of bytes are settled by running through the values. *)

Fixpoint forall_below (n : nat) (P : Z → bool) : bool :=
  match n with
  | O => true
  | S n' => P (Z.of_nat n') && forall_below n' P
  end.

Lemma forall_below_spec n P :
  forall_below n P = true → ∀ x, 0 ≤ x < Z.of_nat n → P x = true.
Proof.
  induction n as [|n IH]; intros Hall x Hx; [lia|].
  cbn [forall_below] in Hall. apply andb_true_iff in Hall as [Hn Hrest].
  destruct (decide (x = Z.of_nat n)) as [->|Hne]; [exact Hn|].
  apply IH; [exact Hrest | lia].
Qed.

Lemma land_ones_range x k :
  0 ≤ k → 0 ≤ Z.land x (Z.ones k) < 2 ^ k.
Proof.
  intros Hk. rewrite Z.land_ones by exact Hk.
  apply Z.mod_pos_bound. apply Z.pow_pos_nonneg; lia.
Qed.

Lemma land_0x3_range x : 0 ≤ Z.land x 0x3 ≤ 3.
Proof. pose proof (land_ones_range x 2). change (Z.ones 2) with 3 in *. lia. Qed.

Lemma land_0xF_range x : 0 ≤ Z.land x 0xF ≤ 15.
Proof. pose proof (land_ones_range x 4). change (Z.ones 4) with 15 in *. lia. Qed.

Lemma land_0x1F_range x : 0 ≤ Z.land x 0x1F ≤ 0x1F.
Proof. pose proof (land_ones_range x 5). change (Z.ones 5) with 31 in *. lia. Qed.

Lemma land_0x7F_range x : 0 ≤ Z.land x 0x7F ≤ 0x7F.
Proof. pose proof (land_ones_range x 7). change (Z.ones 7) with 127 in *. lia. Qed.

Lemma MBC1_low_bits_range bank value :
  0 ≤ bank < 0x100 → 0 ≤ value < 0x100 →
  0 ≤ Z.lor (Z.land bank 0xe0) (Z.land value 0x1f) < 0x100.
Proof.
  intros Hb Hv.
  pose (P := λ b, forall_below 256 (λ v,
               let x := Z.lor (Z.land b 0xe0) (Z.land v 0x1f) in
               (0 <=? x) && (x <? 0x100))).
  assert (HP : P bank = true).
  { apply (forall_below_spec 256); [vm_compute; reflexivity | lia]. }
  apply (forall_below_spec 256) with (x := value) in HP; [|lia].
  cbv zeta in HP. apply andb_true_iff in HP as [H1 H2]. lia.
Qed.

Lemma MBC1_low_bits_keep bank value :
  0 ≤ bank ≤ 0x1F → 0 ≤ value < 0x100 →
  0 ≤ Z.lor (Z.land bank 0xe0) (Z.land value 0x1f) ≤ 0x1F.
Proof.
  intros Hb Hv.
  pose (P := λ b, forall_below 256 (λ v,
               let x := Z.lor (Z.land b 0xe0) (Z.land v 0x1f) in
               (0 <=? x) && (x <=? 0x1F))).
  assert (HP : P bank = true).
  { apply (forall_below_spec 32); [vm_compute; reflexivity | lia]. }
  apply (forall_below_spec 256) with (x := value) in HP; [|lia].
  cbv zeta in HP. apply andb_true_iff in HP as [H1 H2]. lia.
Qed.

Lemma MBC1_high_bits_range bank value :
  0 ≤ bank < 0x100 → 0 ≤ value < 0x100 →
  0 ≤ Z.lor (Z.land bank 0x1F) (Z.land value 0xe0) < 0x100.
Proof.
  intros Hb Hv.
  pose (P := λ b, forall_below 256 (λ v,
               let x := Z.lor (Z.land b 0x1F) (Z.land v 0xe0) in
               (0 <=? x) && (x <? 0x100))).
  assert (HP : P bank = true).
  { apply (forall_below_spec 256); [vm_compute; reflexivity | lia]. }
  apply (forall_below_spec 256) with (x := value) in HP; [|lia].
  cbv zeta in HP. apply andb_true_iff in HP as [H1 H2]. lia.
Qed.

Lemma MBC5_low_bits_range bank value :
  0 ≤ bank < 0x200 → 0 ≤ value < 0x100 →
  0 ≤ Z.lor (Z.land bank 0x100) value < 0x200.
Proof.
  intros Hb Hv.
  pose (P := λ b, forall_below 256 (λ v,
               let x := Z.lor (Z.land b 0x100) v in
               (0 <=? x) && (x <? 0x200))).
  assert (HP : P bank = true).
  { apply (forall_below_spec 512); [vm_compute; reflexivity | lia]. }
  apply (forall_below_spec 256) with (x := value) in HP; [|lia].
  cbv zeta in HP. apply andb_true_iff in HP as [H1 H2]. lia.
Qed.

Lemma MBC5_high_bit_range bank value :
  0 ≤ bank < 0x200 → 0 ≤ value < 0x100 →
  0 ≤ Z.lor (Z.land bank 0xFF)
            (Go.uint32 (Z.shiftl (Z.land value 0x01) 8)) < 0x200.
Proof.
  intros Hb Hv.
  pose (P := λ b, forall_below 256 (λ v,
               let x := Z.lor (Z.land b 0xFF)
                              (Go.uint32 (Z.shiftl (Z.land v 0x01) 8)) in
               (0 <=? x) && (x <? 0x200))).
  assert (HP : P bank = true).
  { apply (forall_below_spec 512); [vm_compute; reflexivity | lia]. }
  apply (forall_below_spec 256) with (x := value) in HP; [|lia].
  cbv zeta in HP. apply andb_true_iff in HP as [H1 H2]. lia.
Qed.

(** ** Slices *)

Lemma length_make n : 0 ≤ n → Z.of_nat (length (Go.make n)) = n.
Proof. intros Hn. unfold Go.make. rewrite length_replicate. lia. Qed.

Lemma index_is_Some s i :
  0 ≤ i < Z.of_nat (length s) → is_Some (Go.index s i).
Proof. intros Hi. unfold Go.index. apply lookup_lt_is_Some. lia. Qed.

Lemma index_None s i :
  0 ≤ i → Z.of_nat (length s) ≤ i → Go.index s i = None.
Proof. intros H0 Hi. unfold Go.index. apply lookup_ge_None. lia. Qed.

Lemma assign_Some s i v :
  0 ≤ i < Z.of_nat (length s) →
  Go.assign s i v = Some (<[Z.to_nat i := v]> s).
Proof.
  intros Hi. unfold Go.assign. destruct (decide _) as [|Hn]; [reflexivity|].
  exfalso. apply Hn. lia.
Qed.

Lemma assign_length s i v s' :
  Go.assign s i v = Some s' → length s' = length s.
Proof.
  unfold Go.assign. destruct (decide _); intros [= <-].
  apply length_insert.
Qed.

Lemma length_copy dst src : length (Go.copy dst src) = length dst.
Proof.
  unfold Go.copy. rewrite length_app, length_take, length_drop. lia.
Qed.

Lemma copy_same_length dst src :
  length dst = length src → Go.copy dst src = src.
Proof.
  intros Hlen. unfold Go.copy. rewrite Hlen, firstn_all.
  rewrite <- Hlen, drop_all. apply app_nil_r.
Qed.

(** ** What holds in every state of a controller *)

Definition invariant (c : BankingController) : Prop :=
  match c with
  | mbc1 r =>
      Z.of_nat (length (Ram (MBC1_BaseMBC r))) = 0x8000 ∧
      0 ≤ MBC1_RamBank r ≤ 3 ∧
      0 ≤ RomBank (MBC1_BaseMBC r) < 0x100 ∧
      (MBC1_RomBanking r = false → RomBank (MBC1_BaseMBC r) ≤ 0x1F)
  | mbc2 r =>
      Z.of_nat (length (Ram (MBC2_BaseMBC r))) = 0x2000 ∧
      1 ≤ RomBank (MBC2_BaseMBC r) ≤ 15
  | mbc3 r =>
      Z.of_nat (length (Ram (MBC3_BaseMBC r))) = 0x8000 ∧
      length (MBC3_Rtc r) = 16%nat ∧
      length (MBC3_LatchedRtc r) = 16%nat ∧
      0 ≤ MBC3_RamBank r < 0x100 ∧
      1 ≤ RomBank (MBC3_BaseMBC r) ≤ 0x7F
  | mbc5 r =>
      Z.of_nat (length (Ram (MBC5_BaseMBC r))) = 0x20000 ∧
      0 ≤ MBC5_RamBank r ≤ 15 ∧
      0 ≤ RomBank (MBC5_BaseMBC r) < 0x200
  end.

Ltac bool_facts :=
  repeat match goal with
  | H : (_ || _) = true |- _ => apply orb_true_iff in H as [H|H]
  | H : (_ || _) = false |- _ => apply orb_false_iff in H as [? H]
  | H : (_ =? _) = true |- _ => apply Z.eqb_eq in H
  | H : (_ =? _) = false |- _ => apply Z.eqb_neq in H
  | H : (_ <? _) = true |- _ => apply Z.ltb_lt in H
  | H : (_ <? _) = false |- _ => apply Z.ltb_ge in H
  | H : (_ <=? _) = true |- _ => apply Z.leb_le in H
  | H : (_ <=? _) = false |- _ => apply Z.leb_gt in H
  end.

Lemma uint8_small x : 0 ≤ x < 0x100 → Go.uint8 x = x.
Proof. intros Hx. apply Z.mod_small. exact Hx. Qed.

Lemma uint16_small x : 0 ≤ x < 0x10000 → Go.uint16 x = x.
Proof. intros Hx. apply Z.mod_small. exact Hx. Qed.

Lemma uint32_small x : 0 ≤ x < 0x100000000 → Go.uint32 x = x.
Proof. intros Hx. apply Z.mod_small. exact Hx. Qed.

Lemma invariant_NewMBC1 data : invariant (mbc1 (NewMBC1 data)).
Proof.
  unfold invariant, NewMBC1.
  cbn [Ram RomBank MBC1_BaseMBC MBC1_RamBank MBC1_RomBanking].
  rewrite length_make by lia. repeat split; lia.
Qed.

Lemma invariant_NewMBC2 data : invariant (mbc2 (NewMBC2 data)).
Proof.
  unfold invariant, NewMBC2. cbn [Ram RomBank MBC2_BaseMBC].
  rewrite length_make by lia. repeat split; lia.
Qed.

Lemma invariant_NewMBC3 data : invariant (mbc3 (NewMBC3 data)).
Proof.
  unfold invariant, NewMBC3.
  cbn [Ram RomBank MBC3_BaseMBC MBC3_RamBank MBC3_Rtc MBC3_LatchedRtc].
  rewrite length_make by lia. repeat split; try lia; reflexivity.
Qed.

Lemma invariant_NewMBC5 data : invariant (mbc5 (NewMBC5 data)).
Proof.
  unfold invariant, NewMBC5. cbn [Ram RomBank MBC5_BaseMBC MBC5_RamBank].
  rewrite length_make by lia. repeat split; lia.
Qed.

Lemma invariant_MBC1_WriteROM r address value :
  0 ≤ value < 0x100 →
  invariant (mbc1 r) → invariant (mbc1 (MBC1_WriteROM r address value)).
Proof.
  intros Hv (Hram & Hrb & Hbank & Hmode).
  unfold MBC1_WriteROM, MBC1_updateRomBankIfZero.
  pose proof (MBC1_low_bits_range _ _ Hbank Hv) as Hlow.
  pose proof (MBC1_high_bits_range _ _ Hbank Hv) as Hhigh.
  pose proof (land_0x3_range value) as H3.
  pose proof (land_0x1F_range (RomBank (MBC1_BaseMBC r))) as H1F.
  assert (Hkeep : MBC1_RomBanking r = false →
            0 ≤ Z.lor (Z.land (RomBank (MBC1_BaseMBC r)) 0xe0)
                      (Z.land value 0x1f) ≤ 0x1F).
  { intros Hm. apply MBC1_low_bits_keep; [|exact Hv].
    specialize (Hmode Hm). lia. }
  repeat case_match;
    cbn [invariant MBC1_BaseMBC MBC1_RamBank MBC1_RomBanking
         set_RomBank set_RamEnabled Ram RomBank] in *;
    bool_facts; rewrite ?uint32_small by lia;
    (split; [exact Hram|]); (split; [lia|]);
    (split; [try lia|]); try (intros Hm; try discriminate Hm);
    try (specialize (Hkeep Hm)); try (specialize (Hmode Hm)); try lia.
Qed.

Lemma invariant_WriteROM c address value :
  0 ≤ value < 0x100 →
  invariant c → invariant (WriteROM c address value).
Proof.
  intros Hv Hinv. destruct c as [r|r|r|r].
  - apply invariant_MBC1_WriteROM; assumption.
  - destruct Hinv as (Hram & Hbank).
    pose proof (land_0xF_range value) as HF.
    cbn [WriteROM]. unfold MBC2_WriteROM.
    repeat case_match;
      cbn [invariant MBC2_BaseMBC set_RomBank set_RamEnabled Ram RomBank];
      bool_facts; rewrite ?uint32_small by lia; (split; [exact Hram|lia]).
  - destruct Hinv as (Hram & Hrtc & Hlatched & Hrb & Hbank).
    pose proof (land_0x7F_range value) as H7F.
    cbn [WriteROM]. unfold MBC3_WriteROM.
    repeat case_match;
      cbn [invariant MBC3_BaseMBC MBC3_RamBank MBC3_Rtc MBC3_LatchedRtc
           set_RomBank set_RamEnabled Ram RomBank];
      bool_facts; rewrite ?uint32_small by lia; rewrite ?length_copy;
      repeat split; try assumption; lia.
  - destruct Hinv as (Hram & Hrb & Hbank).
    pose proof (land_0xF_range value) as HF.
    pose proof (MBC5_low_bits_range _ _ Hbank Hv) as Hlow.
    pose proof (MBC5_high_bit_range _ _ Hbank Hv) as Hhigh.
    cbn [WriteROM]. unfold MBC5_WriteROM.
    repeat case_match;
      cbn [invariant MBC5_BaseMBC MBC5_RamBank
           set_RomBank set_RamEnabled Ram RomBank];
      repeat split; try assumption; lia.
Qed.

Lemma invariant_WriteRAM c address value c' :
  WriteRAM c address value = Some c' → invariant c → invariant c'.
Proof.
  destruct c as [r|r|r|r]; cbn [WriteRAM];
    unfold MBC1_WriteRAM, MBC2_WriteRAM, MBC3_WriteRAM, MBC5_WriteRAM;
    intros Hw Hinv;
    repeat case_match; simplify_option_eq;
    repeat match goal with
    | H : Go.assign _ _ _ = Some _ |- _ => apply assign_length in H
    end;
    cbn [invariant MBC1_BaseMBC MBC2_BaseMBC MBC3_BaseMBC MBC5_BaseMBC
         MBC1_RamBank MBC3_RamBank MBC5_RamBank MBC1_RomBanking
         MBC3_Rtc MBC3_LatchedRtc set_Ram Ram RomBank] in *;
    try assumption;
    repeat match goal with H : _ ∧ _ |- _ => destruct H end;
    repeat split; try assumption; lia.
Qed.

Lemma reachable_invariant c : reachable c → invariant c.
Proof.
  induction 1 as [data|data|data|data|c a v Hc IH Ha Hv|c a v c' Hc IH Ha Hv Hw].
  - exact (invariant_NewMBC1 data).
  - exact (invariant_NewMBC2 data).
  - exact (invariant_NewMBC3 data).
  - exact (invariant_NewMBC5 data).
  - apply invariant_WriteROM; assumption.
  - eapply invariant_WriteRAM; eassumption.
Qed.

(** ** The RAM-enable gate *)

(** The controller [c] with its RAM-enabled flag set to [x] and nothing else
    changed. *)
Definition with_RamEnabled (c : BankingController) (x : bool)
  : BankingController :=
  match c with
  | mbc1 r => mbc1 (mkMBC1 (set_RamEnabled (MBC1_BaseMBC r) x)
                           (MBC1_RamBank r) (MBC1_RomBanking r))
  | mbc2 r => mbc2 (mkMBC2 (set_RamEnabled (MBC2_BaseMBC r) x))
  | mbc3 r => mbc3 (mkMBC3 (set_RamEnabled (MBC3_BaseMBC r) x)
                           (MBC3_RamBank r) (MBC3_Rtc r) (MBC3_LatchedRtc r)
                           (MBC3_Latched r))
  | mbc5 r => mbc5 (mkMBC5 (set_RamEnabled (MBC5_BaseMBC r) x)
                           (MBC5_RamBank r))
  end.

(** A write to the RAM-enable region of MBC1, MBC5, or MBC2 with address
    bit 8 clear. *)
Definition ram_enable_write (c : BankingController) (address : Z) : Prop :=
  0 ≤ address < 0x2000 ∧
  match c with
  | mbc1 _ | mbc5 _ => True
  | mbc2 _ => Z.land address 0x100 = 0
  | mbc3 _ => False
  end.

(** C10.  For MBC1, MBC5 and MBC2 with address bit 8 clear, a [WriteROM]
    below 0x2000 sets the RAM-enabled flag when the low four bits of the
    value are 0xA, clears it when they are 0, and otherwise returns the
    controller as it was; in the first two cases nothing but the flag
    changes. *)
Theorem ram_enable_gate c address value :
  ram_enable_write c address →
  (Z.land value 0xF = 0xA →
     WriteROM c address value = with_RamEnabled c true ∧
     RamEnabled (base (WriteROM c address value)) = true) ∧
  (Z.land value 0xF = 0x0 →
     WriteROM c address value = with_RamEnabled c false ∧
     RamEnabled (base (WriteROM c address value)) = false) ∧
  (Z.land value 0xF ≠ 0xA → Z.land value 0xF ≠ 0x0 →
     WriteROM c address value = c).
Proof.
  intros [Haddr Hc].
  assert (Hlt : (address <? 0x2000) = true) by (apply Z.ltb_lt; lia).
  destruct c as [r|r|r|r]; try contradiction; cbn [WriteROM with_RamEnabled];
    unfold MBC1_WriteROM, MBC2_WriteROM, MBC5_WriteROM; rewrite Hlt;
    try (rewrite Hc; change (0 =? 0) with true; cbv iota).
  all: split; [|split].
  all: try (intros Hv; rewrite Hv; split; reflexivity).
  all: intros HA H0; apply Z.eqb_neq in HA, H0; rewrite HA, H0; reflexivity.
Qed.

Lemma ram_enable_gate_witness :
  (Z.land 0x3A 0xF = 0xA →
     WriteROM (mbc2 (NewMBC2 [])) 0x0000 0x3A
       = with_RamEnabled (mbc2 (NewMBC2 [])) true ∧
     RamEnabled (base (WriteROM (mbc2 (NewMBC2 [])) 0x0000 0x3A)) = true) ∧
  (Z.land 0x3A 0xF = 0x0 →
     WriteROM (mbc2 (NewMBC2 [])) 0x0000 0x3A
       = with_RamEnabled (mbc2 (NewMBC2 [])) false ∧
     RamEnabled (base (WriteROM (mbc2 (NewMBC2 [])) 0x0000 0x3A)) = false) ∧
  (Z.land 0x3A 0xF ≠ 0xA → Z.land 0x3A 0xF ≠ 0x0 →
     WriteROM (mbc2 (NewMBC2 [])) 0x0000 0x3A = mbc2 (NewMBC2 [])).
Proof.
  apply (ram_enable_gate (mbc2 (NewMBC2 [])) 0x0000 0x3A).
  split; [lia | reflexivity].
Defined.

(** ** The MBC1 mode toggle *)

(** C9.  A [WriteROM] to [0x6000,0x8000) that takes MBC1 from RAM-banking
    mode to ROM-banking mode leaves RAM bank 0 selected, whatever bank was
    selected before and in every state, and leaves the ROM bank as it was; in
    a state the controller can be in, that is its former value masked with
    0x1F, the low five bits. *)
Theorem MBC1_mode_toggle r address value :
  0x6000 ≤ address < 0x8000 →
  MBC1_RomBanking r = false →
  MBC1_RomBanking (MBC1_WriteROM r address value) = true →
  MBC1_RamBank (MBC1_WriteROM r address value) = 0 ∧
  RomBank (MBC1_BaseMBC (MBC1_WriteROM r address value))
    = RomBank (MBC1_BaseMBC r) ∧
  (reachable (mbc1 r) →
   RomBank (MBC1_BaseMBC (MBC1_WriteROM r address value))
     = Z.land (RomBank (MBC1_BaseMBC r)) 0x1F).
Proof.
  intros Haddr Hram Hrom.
  assert (Hwrite : MBC1_RamBank (MBC1_WriteROM r address value) = 0 ∧
                   RomBank (MBC1_BaseMBC (MBC1_WriteROM r address value))
                   = RomBank (MBC1_BaseMBC r)).
  { revert Hrom. unfold MBC1_WriteROM.
    assert (H1 : (address <? 0x2000) = false) by (apply Z.ltb_ge; lia).
    assert (H2 : (address <? 0x4000) = false) by (apply Z.ltb_ge; lia).
    assert (H3 : (address <? 0x6000) = false) by (apply Z.ltb_ge; lia).
    assert (H4 : (address <? 0x8000) = true) by (apply Z.ltb_lt; lia).
    rewrite H1, H2, H3, H4.
    destruct (Z.land value 0x1 =? 0x00); cbn [MBC1_RomBanking MBC1_RamBank
      MBC1_BaseMBC RomBank]; [|discriminate].
    intros _. split; reflexivity. }
  destruct Hwrite as [Hbank0 Hkept].
  split; [exact Hbank0|]. split; [exact Hkept|].
  intros Hreach.
  apply reachable_invariant in Hreach as (_ & _ & Hbank & Hmode).
  specialize (Hmode Hram). rewrite Hkept.
  change 0x1F with (Z.ones 5). rewrite Z.land_ones by lia.
  symmetry. apply Z.mod_small. change (2 ^ 5) with 32. lia.
Qed.

Lemma MBC1_mode_toggle_witness :
  MBC1_RamBank (MBC1_WriteROM (NewMBC1 []) 0x4000 0x02) = 2 ∧
  MBC1_RamBank
    (MBC1_WriteROM (MBC1_WriteROM (NewMBC1 []) 0x4000 0x02) 0x6000 0x00) = 0 ∧
  RomBank (MBC1_BaseMBC
    (MBC1_WriteROM (MBC1_WriteROM (NewMBC1 []) 0x4000 0x02) 0x6000 0x00))
    = Z.land (RomBank (MBC1_BaseMBC
                (MBC1_WriteROM (NewMBC1 []) 0x4000 0x02))) 0x1F.
Proof.
  assert (Hall := MBC1_mode_toggle
            (MBC1_WriteROM (NewMBC1 []) 0x4000 0x02) 0x6000 0x00).
  destruct Hall as (Hbank0 & _ & Hmask).
  - lia.
  - reflexivity.
  - reflexivity.
  - split; [reflexivity|]. split; [exact Hbank0|].
    apply Hmask.
    apply (reach_WriteROM (mbc1 (NewMBC1 [])) 0x4000 0x02);
      [apply reach_NewMBC1 | lia | lia].
Defined.

(** ** The ROM bank after a bank-select write *)

(** A [WriteROM] that sets the ROM bank through an arm that ends with the
    "bump" of a bank that cannot be used: every write to [0x2000,0x4000) of
    MBC1 and MBC3, one to [0x4000,0x6000) of MBC1 in ROM-banking mode, and one
    to [0x2000,0x4000) of MBC2 with address bit 8 set.  MBC5 has no such
    arm. *)
Definition bank_select_write (c : BankingController) (address : Z) : Prop :=
  match c with
  | mbc1 r => 0x2000 ≤ address < 0x4000 ∨
              (0x4000 ≤ address < 0x6000 ∧ MBC1_RomBanking r = true)
  | mbc2 _ => 0x2000 ≤ address < 0x4000 ∧ Z.land address 0x100 = 0x100
  | mbc3 _ => 0x2000 ≤ address < 0x4000
  | mbc5 _ => False
  end.

(** The bank such a write computes from the value, before the bump. *)
Definition computed_bank (c : BankingController) (address value : Z) : Z :=
  match c with
  | mbc1 r =>
      if address <? 0x4000
      then Z.lor (Z.land (RomBank (MBC1_BaseMBC r)) 0xe0) (Z.land value 0x1f)
      else Z.lor (Z.land (RomBank (MBC1_BaseMBC r)) 0x1F) (Z.land value 0xe0)
  | mbc2 _ => Z.land value 0xF
  | mbc3 _ => Z.land value 0x7F
  | mbc5 r => Z.lor (Z.land (RomBank (MBC5_BaseMBC r)) 0x100) value
  end.

(** The variants whose ROM bank is set by bank-select writes only. *)
Definition bank_set_by_select_only (c : BankingController) : Prop :=
  match c with
  | mbc2 _ | mbc3 _ => True
  | mbc1 _ | mbc5 _ => False
  end.

(** C3, the claim as stated fails: MBC5 has no bump, and after the write of 0
    to 0x2000 the controller, fresh from its constructor, has ROM bank 0
    selected. *)
Lemma MBC5_selects_bank_zero :
  reachable (WriteROM (mbc5 (NewMBC5 [])) 0x2000 0x00) ∧
  RomBank (base (WriteROM (mbc5 (NewMBC5 [])) 0x2000 0x00)) = 0.
Proof.
  split; [|reflexivity].
  apply reach_WriteROM; [apply reach_NewMBC5 | lia | lia].
Qed.

(** MBC1 masks the ROM bank with 0x1F when it leaves ROM-banking mode and
    does not bump the result: from bank 0x80 the write selects bank 0. *)
Lemma MBC1_mode_switch_selects_bank_zero :
  let r := MBC1_WriteROM (MBC1_WriteROM (MBC1_WriteROM (MBC1_WriteROM
             (NewMBC1 []) 0x6000 0x00) 0x4000 0x80) 0x2000 0x00) 0x6000 0x01 in
  MBC1_RomBanking r = false ∧ RomBank (MBC1_BaseMBC r) = 0.
Proof. split; reflexivity. Qed.

(** C3, amended.  In a state a controller can be in, a bank-select write of
    MBC1, MBC2 or MBC3 never leaves ROM bank 0 selected, and leaves bank 1
    selected when the bank it computes is 0; the ROM bank of MBC2 and of MBC3
    is not 0 in any such state. *)
Theorem rom_bank_bump c address value :
  reachable c →
  (bank_select_write c address →
     RomBank (base (WriteROM c address value)) ≠ 0 ∧
     (computed_bank c address value = 0 →
        RomBank (base (WriteROM c address value)) = 1)) ∧
  (bank_set_by_select_only c → RomBank (base c) ≠ 0).
Proof.
  intros Hreach. apply reachable_invariant in Hreach as Hinv. split.
  - destruct c as [r|r|r|r]; cbn [bank_select_write]; [| | |contradiction].
    + intros Hsel. cbn [WriteROM base computed_bank].
      unfold MBC1_WriteROM, MBC1_updateRomBankIfZero.
      assert (H1 : (address <? 0x2000) = false)
        by (apply Z.ltb_ge; lia).
      rewrite H1.
      destruct Hsel as [Ha|[Ha Hm]].
      * assert (H2 : (address <? 0x4000) = true) by (apply Z.ltb_lt; lia).
        rewrite H2. cbn [MBC1_BaseMBC set_RomBank RomBank].
        repeat case_match; cbn [MBC1_BaseMBC set_RomBank RomBank];
          bool_facts;
          repeat match goal with
          | H : Z.lor _ _ = _ |- _ => rewrite H
          end; split; try (intros; reflexivity); try discriminate;
          try assumption; intros; congruence.
      * assert (H2 : (address <? 0x4000) = false) by (apply Z.ltb_ge; lia).
        assert (H3 : (address <? 0x6000) = true) by (apply Z.ltb_lt; lia).
        rewrite H2, H3, Hm. cbn [MBC1_BaseMBC set_RomBank RomBank].
        repeat case_match; cbn [MBC1_BaseMBC set_RomBank RomBank];
          bool_facts;
          repeat match goal with
          | H : Z.lor _ _ = _ |- _ => rewrite H
          end; split; try (intros; reflexivity); try discriminate;
          try assumption; intros; congruence.
    + intros [Ha Hbit]. cbn [WriteROM base computed_bank].
      unfold MBC2_WriteROM.
      assert (H1 : (address <? 0x2000) = false) by (apply Z.ltb_ge; lia).
      assert (H2 : (address <? 0x4000) = true) by (apply Z.ltb_lt; lia).
      rewrite H1, H2, Hbit. change (0x100 =? 0x100) with true. cbv iota zeta.
      repeat case_match; cbn [MBC2_BaseMBC set_RomBank RomBank];
        bool_facts;
        repeat match goal with
        | H : Z.land _ _ = _ |- _ => rewrite H
        end; split; try (intros; reflexivity); try discriminate;
        try assumption; intros; congruence.
    + intros Ha. cbn [WriteROM base computed_bank].
      unfold MBC3_WriteROM.
      assert (H1 : (address <? 0x2000) = false) by (apply Z.ltb_ge; lia).
      assert (H2 : (address <? 0x4000) = true) by (apply Z.ltb_lt; lia).
      rewrite H1, H2. cbv zeta. cbn [MBC3_BaseMBC set_RomBank RomBank].
      repeat case_match; bool_facts;
        repeat match goal with
        | H : Z.land _ _ = _ |- _ => rewrite H
        end; split; try (intros; reflexivity); try discriminate;
        try assumption; intros; congruence.
  - destruct c as [r|r|r|r]; cbn [bank_set_by_select_only base];
      try contradiction; intros _; cbn [invariant] in Hinv; lia.
Qed.

Lemma rom_bank_bump_witness :
  RomBank (base (WriteROM (mbc1 (NewMBC1 [])) 0x2000 0x00)) ≠ 0 ∧
  (computed_bank (mbc1 (NewMBC1 [])) 0x2000 0x00 = 0 →
     RomBank (base (WriteROM (mbc1 (NewMBC1 [])) 0x2000 0x00)) = 1).
Proof.
  apply (proj1 (rom_bank_bump (mbc1 (NewMBC1 [])) 0x2000 0x00
                  (reach_NewMBC1 []))).
  left. lia.
Defined.

(** ** Bounds of the ROM, RAM and RTC accesses *)

(** The RTC select of MBC3 lies within the 16-entry register files. *)
Definition rtc_select_in_file (c : BankingController) : Prop :=
  match c with
  | mbc3 r => MBC3_RamBank r < 0x10
  | _ => True
  end.

(** C2, the claim as stated fails.  MBC3 takes the RAM-bank/RTC select from
    the value unmasked, and after selecting 0x10 a read of the RAM window
    indexes the 16-entry RTC file out of range; for an address above the RAM
    window the RAM index of MBC1 with bank 3 selected leaves the RAM buffer;
    and the ROM index is not reduced to the length of the ROM image: MBC5 with
    a two-bank image and bank 2 selected reads beyond it. *)
Lemma bounds_counterexample :
  Read (WriteROM (mbc3 (NewMBC3 [])) 0x4000 0x10) 0xA000 = None ∧
  Read (WriteROM (mbc1 (NewMBC1 [])) 0x4000 0x03) 0xC000 = None ∧
  Read (WriteROM (mbc5 (NewMBC5 (Go.make 0x8000))) 0x2000 0x02) 0x4000 = None.
Proof. repeat split; vm_compute; reflexivity. Qed.

Lemma ramIndex_window bank address :
  0 ≤ bank ≤ 15 → 0xA000 ≤ address < 0xC000 →
  ramIndex bank address = 0x2000 * bank + (address - 0xA000).
Proof.
  intros Hb Ha. unfold ramIndex.
  rewrite (uint16_small (address - 0xA000)) by lia.
  rewrite (uint32_small (0x2000 * bank)) by lia.
  apply uint32_small. lia.
Qed.

Lemma romIndex_window b address :
  0 ≤ RomBank b < 0x200 → 0x4000 ≤ address < 0x8000 →
  romIndex b address = (address - 0x4000) + RomBank b * 0x4000.
Proof.
  intros Hb Ha. unfold romIndex.
  rewrite (uint16_small (address - 0x4000)) by lia.
  rewrite (uint32_small (RomBank b * 0x4000)) by lia.
  apply uint32_small. lia.
Qed.

Lemma assign_is_Some s i v :
  0 ≤ i < Z.of_nat (length s) → is_Some (Go.assign s i v).
Proof. intros Hi. rewrite assign_Some by exact Hi. eexists. reflexivity. Qed.

Lemma invariant_RomBank c : invariant c → 0 ≤ RomBank (base c) < 0x200.
Proof.
  destruct c as [r|r|r|r]; cbn [invariant base]; intros Hinv;
    repeat match goal with H : _ ∧ _ |- _ => destruct H end; lia.
Qed.

(** C2, amended.  In a state a controller can be in, with the RTC select of
    MBC3 below 16, a [Read] and a [WriteRAM] at an address of the cartridge
    RAM window [0xA000,0xC000) index the RAM buffer or the RTC files in
    range; a [Read] below 0x8000 indexes the ROM image in range when the
    image holds the selected bank. *)
Theorem ram_window_in_bounds c address :
  reachable c →
  0xA000 ≤ address < 0xC000 →
  rtc_select_in_file c →
  is_Some (Read c address) ∧
  (∀ value, is_Some (WriteRAM c address value)) ∧
  (∀ a, 0 ≤ a < 0x8000 →
        (RomBank (base c) + 1) * 0x4000 ≤ Z.of_nat (length (Rom (base c))) →
        is_Some (Read c a)).
Proof.
  intros Hreach Ha Hrtc. apply reachable_invariant in Hreach as Hinv.
  pose proof (invariant_RomBank c Hinv) as Hbank.
  assert (H4 : (address <? 0x4000) = false) by (apply Z.ltb_ge; lia).
  assert (H8 : (address <? 0x8000) = false) by (apply Z.ltb_ge; lia).
  split; [|split].
  - destruct c as [r|r|r|r]; cbn [Read invariant rtc_select_in_file] in *;
      unfold MBC1_Read, MBC2_Read, MBC3_Read, MBC5_Read; rewrite H4, H8;
      repeat match goal with H : _ ∧ _ |- _ => destruct H end.
    + apply index_is_Some. rewrite ramIndex_window by lia. lia.
    + apply index_is_Some. rewrite uint16_small by lia. lia.
    + destruct (0x4 <=? MBC3_RamBank r) eqn:Hsel; bool_facts.
      * destruct (MBC3_Latched r); apply index_is_Some; lia.
      * apply index_is_Some. rewrite ramIndex_window by lia. lia.
    + apply index_is_Some. rewrite ramIndex_window by lia. lia.
  - intros value.
    destruct c as [r|r|r|r]; cbn [WriteRAM invariant rtc_select_in_file] in *;
      unfold MBC1_WriteRAM, MBC2_WriteRAM, MBC3_WriteRAM, MBC5_WriteRAM;
      repeat match goal with H : _ ∧ _ |- _ => destruct H end;
      destruct (RamEnabled _); try (eexists; reflexivity).
    + rewrite assign_Some by (rewrite ramIndex_window by lia; lia).
      eexists; reflexivity.
    + rewrite assign_Some by (rewrite uint16_small by lia; lia).
      eexists; reflexivity.
    + destruct (0x4 <=? MBC3_RamBank r) eqn:Hsel; bool_facts.
      * rewrite assign_Some by lia. eexists; reflexivity.
      * rewrite assign_Some by (rewrite ramIndex_window by lia; lia).
        eexists; reflexivity.
    + rewrite assign_Some by (rewrite ramIndex_window by lia; lia).
      eexists; reflexivity.
  - intros a Hrange Hrom.
    assert (Hread : Read c a =
              if a <? 0x4000 then Go.index (Rom (base c)) a
              else Go.index (Rom (base c)) (romIndex (base c) a)).
    { assert (Hlt : (a <? 0x8000) = true) by (apply Z.ltb_lt; lia).
      destruct c; cbn [Read base];
        unfold MBC1_Read, MBC2_Read, MBC3_Read, MBC5_Read; rewrite Hlt;
        reflexivity. }
    rewrite Hread. destruct (a <? 0x4000) eqn:Hlow; bool_facts.
    + apply index_is_Some. lia.
    + apply index_is_Some. rewrite romIndex_window by lia. lia.
Qed.

Lemma ram_window_in_bounds_witness :
  is_Some (Read (WriteROM (mbc3 (NewMBC3 [])) 0x4000 0x08) 0xA000) ∧
  (∀ value,
     is_Some (WriteRAM (WriteROM (mbc3 (NewMBC3 [])) 0x4000 0x08)
                       0xA000 value)) ∧
  (∀ a, 0 ≤ a < 0x8000 →
        (RomBank (base (WriteROM (mbc3 (NewMBC3 [])) 0x4000 0x08)) + 1)
          * 0x4000
        ≤ Z.of_nat (length
            (Rom (base (WriteROM (mbc3 (NewMBC3 [])) 0x4000 0x08)))) →
        is_Some (Read (WriteROM (mbc3 (NewMBC3 [])) 0x4000 0x08) a)).
Proof.
  apply (ram_window_in_bounds (WriteROM (mbc3 (NewMBC3 [])) 0x4000 0x08)
           0xA000).
  - apply reach_WriteROM; [apply reach_NewMBC3 | lia | lia].
  - lia.
  - cbn. lia.
Defined.

(** ** The MBC3 latch *)

(** What a latch write does in general: the latch flag is set, the latched
    snapshot is left as it was, and the live registers are overwritten with
    it, since [copy(r.Rtc, r.LatchedRtc)] has the live file as destination. *)
Lemma MBC3_latch_write r address :
  0x6000 ≤ address < 0x8000 →
  length (MBC3_Rtc r) = length (MBC3_LatchedRtc r) →
  MBC3_Latched (MBC3_WriteROM r address 0x00) = true ∧
  MBC3_LatchedRtc (MBC3_WriteROM r address 0x00) = MBC3_LatchedRtc r ∧
  MBC3_Rtc (MBC3_WriteROM r address 0x00) = MBC3_LatchedRtc r.
Proof.
  intros Ha Hlen. unfold MBC3_WriteROM.
  assert (H1 : (address <? 0x2000) = false) by (apply Z.ltb_ge; lia).
  assert (H2 : (address <? 0x4000) = false) by (apply Z.ltb_ge; lia).
  assert (H3 : (address <? 0x6000) = false) by (apply Z.ltb_ge; lia).
  assert (H4 : (address <? 0x8000) = true) by (apply Z.ltb_lt; lia).
  rewrite H1, H2, H3, H4. cbn [Z.eqb MBC3_Latched MBC3_LatchedRtc MBC3_Rtc].
  repeat split. apply copy_same_length. exact Hlen.
Qed.

(** C1, the code at the failing input.  With RTC register 8 selected and RAM
    enabled, 0x2A is written to the live register and read back; after the
    latch write of 0x00 the latch is set, but the read returns 0, the former
    content of the latched file, and the live register holds 0 as well. *)
Theorem MBC3_latch_failing_input :
  let written :=
    MBC3_WriteRAM (MBC3_WriteROM (MBC3_WriteROM (NewMBC3 []) 0x0000 0x0A)
                                 0x4000 0x08) 0xA000 0x2A in
  (r1 ← written; MBC3_Read r1 0xA000) = Some 0x2A ∧
  (r1 ← written; Some (MBC3_Latched (MBC3_WriteROM r1 0x6000 0x00)))
    = Some true ∧
  (r1 ← written; MBC3_Read (MBC3_WriteROM r1 0x6000 0x00) 0xA000)
    = Some 0x00 ∧
  (r1 ← written; Go.index (MBC3_Rtc (MBC3_WriteROM r1 0x6000 0x00)) 8)
    = Some 0x00.
Proof. cbv zeta. repeat split; vm_compute; reflexivity. Qed.

(** * Properties of the machine *)

Import gb.

(** ** Bits of a byte *)

Lemma Test_testbit value bit :
  0 ≤ bit → bits.Test value bit = Z.testbit value bit.
Proof.
  intros Hbit. unfold bits.Test. rewrite Z.testbit_odd.
  change 1 with (Z.ones 1) at 1. rewrite Z.land_ones by lia.
  change (2 ^ 1) with 2. rewrite Zmod_odd.
  destruct (Z.odd (Z.shiftr value bit)); reflexivity.
Qed.

(** The request byte [HighRAM[0x0F] | 0xE0] has the five lines of
    [HighRAM[0x0F]]. *)
Lemma Test_request_lines x i :
  0 ≤ i < 5 → bits.Test (Z.lor x 0xE0) i = bits.Test x i.
Proof.
  intros Hi. rewrite !Test_testbit by lia. rewrite Z.lor_spec.
  assert (Hcases : i = 0 ∨ i = 1 ∨ i = 2 ∨ i = 3 ∨ i = 4) by lia.
  destruct Hcases as [->|[->|[->|[->| ->]]]];
    change (Z.testbit 0xE0 _) with false; apply orb_false_r.
Qed.

Lemma request_positive x : 0 ≤ x → 0 < Z.lor x 0xE0.
Proof.
  intros Hx.
  assert (Hnn : 0 ≤ Z.lor x 0xE0) by (apply Z.lor_nonneg; lia).
  assert (Hbit : Z.testbit (Z.lor x 0xE0) 5 = true).
  { rewrite Z.lor_spec. apply orb_true_r. }
  destruct (decide (Z.lor x 0xE0 = 0)) as [Hz|Hz]; [|lia].
  rewrite Hz in Hbit. discriminate Hbit.
Qed.

(** ** What the theorems assume of the address space

    [HighRAM] is an array of 0x100 bytes.  Two bytes have the [same_lines]
    when they agree on the five interrupt lines, bits 0 to 4. *)

Definition well_formed {D} (m : Memory D) : Prop :=
  length (HighRAM m) = 0x100%nat.

Definition same_lines (a b : Z) : Prop :=
  ∀ i, 0 ≤ i < 5 → Z.testbit a i = Z.testbit b i.

(** The interrupt-request register 0xFF0F is kept in [HighRAM[0x0F]]:
    [ReadHighRam] returns its lines, a [Write] to 0xFF0F stores the lines of
    the value and leaves the rest of [HighRAM] alone, and a [Write] to another
    address leaves [HighRAM[0x0F]] alone. *)
Record InterruptFlagLaws {D} `{MemoryMethods D} : Prop := {
  IF_read : ∀ m : Memory D, well_formed m →
    same_lines (Memory_ReadHighRam m 0xFF0F) (HighRAM_at m 0x0F);
  IF_write : ∀ (m : Memory D) v, well_formed m →
    same_lines (HighRAM_at (Memory_Write m 0xFF0F v) 0x0F) v;
  IF_write_others : ∀ (m : Memory D) v i, well_formed m →
    0 ≤ i < 0x100 → i ≠ 0x0F →
    HighRAM_at (Memory_Write m 0xFF0F v) i = HighRAM_at m i;
  IF_frame : ∀ (m : Memory D) a v, well_formed m → a ≠ 0xFF0F →
    HighRAM_at (Memory_Write m a v) 0x0F = HighRAM_at m 0x0F;
  Write_well_formed : ∀ (m : Memory D) a v, well_formed m →
    well_formed (Memory_Write m a v)
}.
Global Arguments InterruptFlagLaws D {_}.

Lemma HighRAM_at_assign_eq {D} (m : Memory D) i v :
  well_formed m → 0 ≤ i < 0x100 →
  HighRAM_at (HighRAM_assign m i v) i = v.
Proof.
  intros Hwf Hi. unfold HighRAM_at, HighRAM_assign. cbn [HighRAM].
  apply list_lookup_total_insert_eq. unfold well_formed in Hwf. lia.
Qed.

Lemma HighRAM_at_assign_ne {D} (m : Memory D) i j v :
  0 ≤ i → 0 ≤ j → i ≠ j →
  HighRAM_at (HighRAM_assign m i v) j = HighRAM_at m j.
Proof.
  intros Hi Hj Hne. unfold HighRAM_at, HighRAM_assign. cbn [HighRAM].
  apply list_lookup_total_insert_ne. lia.
Qed.

Lemma well_formed_assign {D} (m : Memory D) i v :
  well_formed m → well_formed (HighRAM_assign m i v).
Proof.
  unfold well_formed, HighRAM_assign. cbn [HighRAM].
  rewrite length_insert. trivial.
Qed.

(** The flat address space keeps the interrupt-request register so. *)
Lemma flat_laws : InterruptFlagLaws (Z → Z).
Proof.
  split.
  - intros m _ i _. reflexivity.
  - intros m v Hwf i _. cbn [Memory_Write flat]. unfold flat_Write.
    change (0xFF00 <=? 0xFF0F) with true. cbv iota.
    rewrite HighRAM_at_assign_eq by (trivial || lia). reflexivity.
  - intros m v i Hwf Hi Hne. cbn [Memory_Write flat]. unfold flat_Write.
    change (0xFF00 <=? 0xFF0F) with true. cbv iota.
    apply HighRAM_at_assign_ne; lia.
  - intros m a v Hwf Hne. cbn [Memory_Write flat]. unfold flat_Write.
    destruct (0xFF00 <=? a) eqn:Ha; [|reflexivity].
    apply Z.leb_le in Ha.
    apply HighRAM_at_assign_ne; lia.
  - intros m a v Hwf. cbn [Memory_Write flat]. unfold flat_Write.
    destruct (0xFF00 <=? a); [apply well_formed_assign; exact Hwf|exact Hwf].
Qed.

(** ** Interrupts *)

(** The bytes [pushStack] writes for a 16-bit value, and the value [popStack]
    puts together from them. *)
Lemma forall_word_spec (P : Z → bool) :
  forall_below 256 (λ h, forall_below 256 (λ l, P (h * 256 + l))) = true →
  ∀ x, 0 ≤ x < 0x10000 → P x = true.
Proof.
  intros Hall x Hx.
  pose proof (Z.div_mod x 256 ltac:(lia)) as Hdm.
  pose proof (Z.mod_pos_bound x 256 ltac:(lia)) as Hl.
  assert (Hh : 0 ≤ x / 256 < 256).
  { split; [apply Z.div_pos; lia | apply Z.div_lt_upper_bound; lia]. }
  apply (forall_below_spec 256) with (x := x / 256) in Hall; [|lia].
  apply (forall_below_spec 256) with (x := x mod 256) in Hall; [|lia].
  replace (x / 256 * 256 + x mod 256) with x in Hall by lia.
  exact Hall.
Qed.

Lemma pushed_bytes v :
  0 ≤ v < 0x10000 →
  Go.uint8 (Z.shiftr (Go.uint16 (Z.land v 0xFF00)) 8) = Z.shiftr v 8 ∧
  Go.uint8 (Z.land v 0xFF) = Z.land v 0xFF ∧
  0 ≤ Z.shiftr v 8 < 0x100 ∧ 0 ≤ Z.land v 0xFF < 0x100 ∧
  Z.lor (Go.uint16 (Z.land v 0xFF))
        (Go.uint16 (Z.shiftl (Go.uint16 (Z.shiftr v 8)) 8)) = v.
Proof.
  intros Hv.
  pose (P := λ v,
    (Go.uint8 (Z.shiftr (Go.uint16 (Z.land v 0xFF00)) 8) =? Z.shiftr v 8) &&
    (Go.uint8 (Z.land v 0xFF) =? Z.land v 0xFF) &&
    (0 <=? Z.shiftr v 8) && (Z.shiftr v 8 <? 0x100) &&
    (0 <=? Z.land v 0xFF) && (Z.land v 0xFF <? 0x100) &&
    (Z.lor (Go.uint16 (Z.land v 0xFF))
           (Go.uint16 (Z.shiftl (Go.uint16 (Z.shiftr v 8)) 8)) =? v)).
  assert (HP : P v = true).
  { apply forall_word_spec; [vm_compute; reflexivity | exact Hv]. }
  unfold P in HP. repeat (apply andb_true_iff in HP as [HP ?]).
  bool_facts. repeat split; assumption || lia.
Qed.
Lemma Reset_testbit value bit i :
  0 ≤ bit < 8 → 0 ≤ i < 8 →
  Z.testbit (bits.Reset value bit) i = Z.testbit value i && negb (i =? bit).
Proof.
  intros Hb Hi. unfold bits.Reset. rewrite Z.land_spec. f_equal.
  assert (Hbs : bit = 0 ∨ bit = 1 ∨ bit = 2 ∨ bit = 3 ∨
                bit = 4 ∨ bit = 5 ∨ bit = 6 ∨ bit = 7) by lia.
  assert (His : i = 0 ∨ i = 1 ∨ i = 2 ∨ i = 3 ∨
                i = 4 ∨ i = 5 ∨ i = 6 ∨ i = 7) by lia.
  destruct Hbs as [->|[->|[->|[->|[->|[->|[->| ->]]]]]]];
    destruct His as [->|[->|[->|[->|[->|[->|[->| ->]]]]]]]; reflexivity.
Qed.

Lemma Set_testbit value bit i :
  0 ≤ bit < 8 → 0 ≤ i < 8 →
  Z.testbit (bits.Set_ value bit) i = Z.testbit value i || (i =? bit).
Proof.
  intros Hb Hi. unfold bits.Set_. rewrite Z.lor_spec. f_equal.
  assert (Hbs : bit = 0 ∨ bit = 1 ∨ bit = 2 ∨ bit = 3 ∨
                bit = 4 ∨ bit = 5 ∨ bit = 6 ∨ bit = 7) by lia.
  assert (His : i = 0 ∨ i = 1 ∨ i = 2 ∨ i = 3 ∨
                i = 4 ∨ i = 5 ∨ i = 6 ∨ i = 7) by lia.
  destruct Hbs as [->|[->|[->|[->|[->|[->|[->| ->]]]]]]];
    destruct His as [->|[->|[->|[->|[->|[->|[->| ->]]]]]]]; reflexivity.
Qed.

Section Interrupts.
Context {D : Type} `{MemoryMethods D}.

(** Once a line is found requested and enabled while the machine is halted
    with interrupts off, the scan ends with the machine un-halted, whichever
    line it was. *)
Lemma scanInterrupts_halted n i k req enabled (gb : Gameboy D) :
  interruptsOn gb = false → halted gb = true →
  i ≤ k < i + Z.of_nat n →
  bits.Test req k = true → bits.Test enabled k = true →
  scanInterrupts n i req enabled gb = (20, set_halted gb false).
Proof.
  intros Hon Hhalt. revert i.
  induction n as [|n IH]; intros i Hk Hreq Hen; [lia|].
  cbn [scanInterrupts].
  destruct (bits.Test req i && bits.Test enabled i) eqn:Hi.
  - unfold serviceInterrupt. rewrite Hon, Hhalt. reflexivity.
  - destruct (decide (k = i)) as [->|Hne].
    + rewrite Hreq, Hen in Hi. discriminate Hi.
    + apply IH; [lia | assumption | assumption].
Qed.

(** C5, amended.  When the machine is halted with interrupts off and one of
    the five lines is requested and enabled, interrupt evaluation reports 20
    cycles and clears the halted flag; memory, and with it every request bit,
    the program counter, the stack pointer and the interrupts-enabled flag
    are as before. *)
Theorem halted_interrupt_unhalts (gb : Gameboy D) line :
  interruptsEnabling gb = false →
  interruptsOn gb = false →
  halted gb = true →
  0 ≤ HighRAM_at (gb_Memory gb) 0x0F →
  0 ≤ line < 5 →
  bits.Test (HighRAM_at (gb_Memory gb) 0x0F) line = true →
  bits.Test (HighRAM_at (gb_Memory gb) 0xFF) line = true →
  doInterrupts gb = (20, set_halted gb false) ∧
  halted (doInterrupts gb).2 = false ∧
  gb_Memory (doInterrupts gb).2 = gb_Memory gb ∧
  gb_CPU (doInterrupts gb).2 = gb_CPU gb ∧
  interruptsOn (doInterrupts gb).2 = false.
Proof.
  intros Hpend Hon Hhalt Hbyte Hline Hreq Hen.
  assert (Hdo : doInterrupts gb = (20, set_halted gb false)).
  { unfold doInterrupts. rewrite Hpend, Hon, Hhalt.
    cbn [negb andb]. cbv zeta.
    pose proof (request_positive _ Hbyte) as Hpos.
    apply Z.ltb_lt in Hpos. rewrite Hpos.
    apply (scanInterrupts_halted 5 0 line);
      [exact Hon | exact Hhalt | lia | | exact Hen].
    rewrite Test_request_lines by lia. exact Hreq. }
  rewrite Hdo. cbn [snd set_halted halted gb_Memory gb_CPU interruptsOn].
  repeat split. exact Hon.
Qed.

End Interrupts.

Section Service.
Context {D : Type} `{MemoryMethods D}.

(** C6, amended.  With interrupts on, the machine not halted, no pending
    enable, and V-Blank and Timer both requested and enabled, interrupt
    evaluation
    services V-Blank: it reports 20 cycles, clears the flags, writes the
    request byte with bit 0 cleared to 0xFF0F, pushes the program counter and
    sets it to 0x40; request bit 0 is then clear and the Timer request bit is
    still set.  The address space keeps the request register as
    [InterruptFlagLaws] says, and the two stack cells are not that
    register. *)
Theorem interrupt_priority (gb : Gameboy D) :
  InterruptFlagLaws D →
  well_formed (gb_Memory gb) →
  interruptsEnabling gb = false →
  interruptsOn gb = true →
  halted gb = false →
  0 ≤ HighRAM_at (gb_Memory gb) 0x0F →
  0 ≤ PC (gb_CPU gb) < 0x10000 →
  bits.Test (HighRAM_at (gb_Memory gb) 0x0F) 0 = true →
  bits.Test (HighRAM_at (gb_Memory gb) 0x0F) 2 = true →
  bits.Test (HighRAM_at (gb_Memory gb) 0xFF) 0 = true →
  bits.Test (HighRAM_at (gb_Memory gb) 0xFF) 2 = true →
  Go.uint16 (register_HiLo (SP (gb_CPU gb)) - 1) ≠ 0xFF0F →
  Go.uint16 (register_HiLo (SP (gb_CPU gb)) - 2) ≠ 0xFF0F →
  (doInterrupts gb).1 = 20 ∧
  gb_Memory (doInterrupts gb).2
    = Memory_Write
        (Memory_Write
           (Memory_Write (gb_Memory gb) 0xFF0F
              (bits.Reset (Memory_ReadHighRam (gb_Memory gb) 0xFF0F) 0))
           (Go.uint16 (register_HiLo (SP (gb_CPU gb)) - 1))
           (Z.shiftr (PC (gb_CPU gb)) 8))
        (Go.uint16 (register_HiLo (SP (gb_CPU gb)) - 2))
        (Z.land (PC (gb_CPU gb)) 0xFF) ∧
  register_HiLo (SP (gb_CPU (doInterrupts gb).2))
    = Go.uint16 (register_HiLo (SP (gb_CPU gb)) - 2) ∧
  PC (gb_CPU (doInterrupts gb).2) = 0x40 ∧
  interruptsOn (doInterrupts gb).2 = false ∧
  halted (doInterrupts gb).2 = false ∧
  bits.Test (HighRAM_at (gb_Memory (doInterrupts gb).2) 0x0F) 0 = false ∧
  bits.Test (HighRAM_at (gb_Memory (doInterrupts gb).2) 0x0F) 2 = true.
Proof.
  intros Hlaws Hwf Hpend Hon Hhalt Hbyte Hpc Hr0 Hr2 He0 He2 Hsp1 Hsp2.
  destruct (pushed_bytes _ Hpc) as (Hhi & Hlo & _).
  assert (Hdo : doInterrupts gb =
    (20, set_CPU
           (pushStack
              (set_Memory (set_halted (set_interruptsOn gb false) false)
                 (Memory_Write (gb_Memory gb) 0xFF0F
                    (bits.Reset (Memory_ReadHighRam (gb_Memory gb) 0xFF0F) 0)))
              (PC (gb_CPU gb)))
           (set_PC (gb_CPU (pushStack
              (set_Memory (set_halted (set_interruptsOn gb false) false)
                 (Memory_Write (gb_Memory gb) 0xFF0F
                    (bits.Reset (Memory_ReadHighRam (gb_Memory gb) 0xFF0F) 0)))
              (PC (gb_CPU gb)))) 0x40))).
  { unfold doInterrupts. rewrite Hpend, Hon, Hhalt. cbn [negb andb]. cbv zeta.
    pose proof (request_positive _ Hbyte) as Hpos.
    apply Z.ltb_lt in Hpos. rewrite Hpos.
    cbn [scanInterrupts]. rewrite Test_request_lines by lia.
    rewrite Hr0, He0. cbn [andb].
    unfold serviceInterrupt. rewrite Hon. cbn [negb andb]. reflexivity. }
  rewrite Hdo. clear Hdo.
  unfold pushStack.
  cbn [fst snd set_CPU set_PC set_SP set_Memory set_halted set_interruptsOn
       gb_Memory gb_CPU PC SP interruptsOn halted register_Set register_HiLo
       reg_value].
  rewrite Hhi, Hlo.
  repeat split.
  - rewrite Test_testbit by lia.
    rewrite (IF_frame Hlaws), (IF_frame Hlaws);
      try assumption; try (repeat apply (Write_well_formed Hlaws); assumption).
    rewrite (IF_write Hlaws) by (assumption || lia).
    rewrite Reset_testbit by lia. apply andb_false_r.
  - rewrite Test_testbit by lia.
    rewrite (IF_frame Hlaws), (IF_frame Hlaws);
      try assumption; try (repeat apply (Write_well_formed Hlaws); assumption).
    rewrite (IF_write Hlaws) by (assumption || lia).
    rewrite Reset_testbit by lia.
    rewrite (IF_read Hlaws) by (assumption || lia).
    rewrite <- Test_testbit by lia. rewrite Hr2. reflexivity.
Qed.
End Service.

(** ** The stack *)

Lemma uint16_pred_succ sp :
  Go.uint16 (Go.uint16 (sp - 2) + 1) = Go.uint16 (sp - 1).
Proof.
  unfold Go.uint16. rewrite Zplus_mod_idemp_l. f_equal. lia.
Qed.

Lemma uint16_sub_add sp :
  0 ≤ sp < 0x10000 → Go.uint16 (Go.uint16 (sp - 2) + 2) = sp.
Proof.
  intros Hsp. unfold Go.uint16. rewrite Zplus_mod_idemp_l.
  replace (sp - 2 + 2) with sp by lia. apply Z.mod_small. exact Hsp.
Qed.

Section Stack.
Context {D : Type} `{MemoryMethods D}.

(** The cells [a1] and [a2] are storage: on a memory with its [HighRAM] array
    of 0x100 bytes, a write keeps the array so, a byte written to either cell
    is the byte read from it, and a write to [a2] leaves [a1] alone. *)
Definition stack_cells_store (a1 a2 : Z) : Prop :=
  (∀ (m : Memory D) a x, well_formed m → well_formed (Memory_Write m a x)) ∧
  (∀ (m : Memory D) x, well_formed m → 0 ≤ x < 0x100 →
     Memory_Read (Memory_Write m a1 x) a1 = x) ∧
  (∀ (m : Memory D) x, well_formed m → 0 ≤ x < 0x100 →
     Memory_Read (Memory_Write m a2 x) a2 = x) ∧
  (∀ (m : Memory D) x, well_formed m →
     Memory_Read (Memory_Write m a2 x) a1 = Memory_Read m a1).

End Stack.

(** ** Timers *)

Section Timers.
Context {D : Type} `{MemoryMethods D}.

Lemma dividerRegister_frame (gb : Gameboy D) cycles i :
  0 ≤ i → i ≠ 0x04 →
  HighRAM_at (gb_Memory (dividerRegister gb cycles)) i
    = HighRAM_at (gb_Memory gb) i ∧
  timerCounter (dividerRegister gb cycles) = timerCounter gb.
Proof.
  intros Hi Hne. unfold dividerRegister.
  cbn [set_CPU gb_CPU gb_Memory set_Divider Divider].
  destruct (255 <=? _); cbn [set_Memory set_CPU gb_Memory timerCounter];
    [|split; reflexivity].
  split; [|reflexivity].
  apply HighRAM_at_assign_ne; [unfold DIV; lia | exact Hi |].
  unfold DIV. lia.
Qed.

Lemma dividerRegister_well_formed (gb : Gameboy D) cycles :
  well_formed (gb_Memory gb) →
  well_formed (gb_Memory (dividerRegister gb cycles)).
Proof.
  intros Hwf. unfold dividerRegister.
  cbn [set_CPU gb_CPU gb_Memory set_Divider Divider].
  destruct (255 <=? _); cbn [set_Memory set_CPU gb_Memory]; [|exact Hwf].
  apply well_formed_assign. exact Hwf.
Qed.

Lemma getClockFreqCount_table (gb : Gameboy D) :
  (getClockFreq gb = 0 → getClockFreqCount gb = 1024) ∧
  (getClockFreq gb = 1 → getClockFreqCount gb = 16) ∧
  (getClockFreq gb = 2 → getClockFreqCount gb = 64) ∧
  (getClockFreq gb = 3 → getClockFreqCount gb = 256) ∧
  (getClockFreq gb = 0 ∨ getClockFreq gb = 1 ∨
   getClockFreq gb = 2 ∨ getClockFreq gb = 3).
Proof.
  unfold getClockFreqCount.
  assert (Hf : 0 ≤ getClockFreq gb ≤ 3) by apply land_0x3_range.
  repeat split; try (intros ->; reflexivity). lia.
Qed.
End Timers.

Lemma int_small x :
  - 0x8000000000000000 ≤ x < 0x8000000000000000 → Go.int x = x.
Proof.
  intros Hx. unfold Go.int.
  change (2 ^ 63) with 0x8000000000000000.
  change (2 ^ 64) with 0x10000000000000000.
  rewrite Z.mod_small; lia.
Qed.

Section TimerThreshold.
Context {D : Type} `{MemoryMethods D}.

Lemma timerLoop_done fuel freq (gb : Gameboy D) :
  timerCounter gb < freq → timerLoop fuel freq gb = Some gb.
Proof.
  intros Hlt. apply Z.leb_gt in Hlt.
  destruct fuel; cbn [timerLoop]; rewrite Hlt; reflexivity.
Qed.

(** C8.  With the timer enabled and the internal counter at 0, advancing the
    timers by the threshold of the selected frequency (1024, 16, 64 or 256
    cycles for the fields 0, 1, 2, 3) ends, with one iteration of fuel, with
    the internal counter back at 0 and TIMA incremented once; from 0xFF, TIMA
    is reloaded from TMA instead and request bit 2 is set.  The address space
    keeps the request register as [InterruptFlagLaws] says. *)
Theorem timer_threshold (gb : Gameboy D) fuel :
  InterruptFlagLaws D →
  well_formed (gb_Memory gb) →
  (1 ≤ fuel)%nat →
  timerCounter gb = 0 →
  bits.Test (HighRAM_at (gb_Memory gb) 0x07) 2 = true →
  0 ≤ HighRAM_at (gb_Memory gb) 0x05 < 0x100 →
  (Z.land (HighRAM_at (gb_Memory gb) 0x07) 0x3 = 0 →
     getClockFreqCount gb = 1024) ∧
  (Z.land (HighRAM_at (gb_Memory gb) 0x07) 0x3 = 1 →
     getClockFreqCount gb = 16) ∧
  (Z.land (HighRAM_at (gb_Memory gb) 0x07) 0x3 = 2 →
     getClockFreqCount gb = 64) ∧
  (Z.land (HighRAM_at (gb_Memory gb) 0x07) 0x3 = 3 →
     getClockFreqCount gb = 256) ∧
  ∃ gb',
    updateTimers fuel gb (getClockFreqCount gb) = Some gb' ∧
    timerCounter gb' = 0 ∧
    (HighRAM_at (gb_Memory gb) 0x05 ≠ 0xFF →
       HighRAM_at (gb_Memory gb') 0x05 = HighRAM_at (gb_Memory gb) 0x05 + 1 ∧
       HighRAM_at (gb_Memory gb') 0x0F = HighRAM_at (gb_Memory gb) 0x0F) ∧
    (HighRAM_at (gb_Memory gb) 0x05 = 0xFF →
       HighRAM_at (gb_Memory gb') 0x05 = HighRAM_at (gb_Memory gb) 0x06 ∧
       bits.Test (HighRAM_at (gb_Memory gb') 0x0F) 2 = true).
Proof.
  intros Hlaws Hwf Hfuel Hcounter Hon Htima.
  destruct (getClockFreqCount_table gb) as (T0 & T1 & T2 & T3 & Tcases).
  do 4 (split; [assumption|]).
  set (freq := getClockFreqCount gb).
  assert (Hfc : freq = 1024 ∨ freq = 16 ∨ freq = 64 ∨ freq = 256).
  { unfold freq. destruct Tcases as [E|[E|[E|E]]]; auto. }
  clear T0 T1 T2 T3 Tcases.
  destruct fuel as [|fuel]; [lia|].
  unfold updateTimers. cbv zeta.
  set (gb1 := dividerRegister gb freq).
  destruct (dividerRegister_frame gb freq 0x05 ltac:(lia) ltac:(lia))
    as [H5 Hc1].
  destruct (dividerRegister_frame gb freq 0x06 ltac:(lia) ltac:(lia))
    as [H6 _].
  destruct (dividerRegister_frame gb freq 0x07 ltac:(lia) ltac:(lia))
    as [H7 _].
  destruct (dividerRegister_frame gb freq 0x0F ltac:(lia) ltac:(lia))
    as [HF _].
  pose proof (dividerRegister_well_formed gb freq Hwf) as Hwf1.
  fold gb1 in H5, H6, H7, HF, Hc1, Hwf1.
  unfold isClockEnabled. rewrite H7, Hon.
  assert (Hfreq : getClockFreqCount
                    (set_timerCounter gb1 (Go.int (timerCounter gb1 + freq)))
                  = freq).
  { unfold freq, getClockFreqCount, getClockFreq.
    cbn [set_timerCounter gb_Memory]. rewrite H7. reflexivity. }
  rewrite Hfreq, Hc1, Hcounter. clear Hfreq. clearbody freq.
  assert (Hint : Go.int (0 + freq) = freq)
    by (rewrite int_small; lia).
  rewrite Hint. clear Hint.
  cbn [timerLoop set_timerCounter timerCounter gb_Memory].
  rewrite Z.leb_refl, Z.sub_diag.
  change (Go.int 0) with 0. rewrite H5.
  destruct (HighRAM_at (gb_Memory gb) 0x05 =? 0xFF) eqn:Hff; bool_facts.
  - eexists. split; [apply timerLoop_done|].
    + unfold requestInterrupt. cbn [set_Memory set_timerCounter timerCounter]. lia.
    + unfold requestInterrupt, TIMA.
      cbn [set_Memory set_timerCounter timerCounter gb_Memory gb_CPU].
      change (0xFF05 - 0xFF00) with 0x05.
      split; [reflexivity|]. split; [intros Hne; contradiction|].
      intros _. split.
      * rewrite (IF_write_others Hlaws)
          by (try apply well_formed_assign; trivial; lia).
        rewrite HighRAM_at_assign_eq by (trivial || lia). exact H6.
      * rewrite Test_testbit by lia.
        rewrite (IF_write Hlaws)
          by (try apply well_formed_assign; trivial; lia).
        rewrite Set_testbit by lia. apply orb_true_r.
  - eexists. split; [apply timerLoop_done|].
    + cbn [set_Memory set_timerCounter timerCounter]. lia.
    + unfold TIMA. cbn [set_Memory set_timerCounter timerCounter gb_Memory gb_CPU].
      change (0xFF05 - 0xFF00) with 0x05.
      split; [reflexivity|]. split; [|intros Heq; contradiction].
      intros _. split.
      * rewrite HighRAM_at_assign_eq by (trivial || lia).
        apply uint8_small. lia.
      * rewrite HighRAM_at_assign_ne by lia. exact HF.
Qed.
End TimerThreshold.

(** ** The save state *)

Section SaveLoad.
Context {D : Type} `{MemoryMethods D}.

(** The flag byte [SaveState] writes, read back by [LoadState]: a halted
    machine writes 3, which sets bits 0 and 1 and not bit 2. *)
Lemma loadInterrupts_saveInterrupts (gb gb0 : Gameboy D) :
  interruptsEnabling (loadInterrupts gb0 (saveInterrupts gb))
    = interruptsEnabling gb || halted gb ∧
  interruptsOn (loadInterrupts gb0 (saveInterrupts gb))
    = interruptsOn gb || halted gb ∧
  halted (loadInterrupts gb0 (saveInterrupts gb)) = false.
Proof.
  unfold loadInterrupts, saveInterrupts.
  cbn [set_halted set_interruptsOn set_interruptsEnabling
       interruptsEnabling interruptsOn halted].
  destruct (interruptsEnabling gb), (interruptsOn gb), (halted gb);
    repeat split; reflexivity.
Qed.

(** C4, the code on every flag combination.  When the memory part of the
    state is saved and loaded without error, [SaveState] followed by
    [LoadState] succeeds, and the machine restored is never halted: for a
    machine saved halted the flags come back as pending-enable and
    interrupts-on both set and halted clear; the three flags come back as
    they were exactly for a machine that is not halted. *)
Theorem SaveState_LoadState_flags (gb gb0 : Gameboy D) mem mem' :
  Memory_SaveState (gb_Memory gb) = Some mem →
  Memory_LoadState (gb_Memory gb0) mem = Some mem' →
  ∃ stream gb',
    SaveState gb = Some stream ∧
    LoadState gb0 stream = Some gb' ∧
    interruptsEnabling gb' = interruptsEnabling gb || halted gb ∧
    interruptsOn gb' = interruptsOn gb || halted gb ∧
    halted gb' = false.
Proof.
  intros Hsave Hload.
  destruct (loadInterrupts_saveInterrupts gb gb0) as (He & Ho & Hh).
  unfold SaveState. rewrite Hsave. cbn [mbind option_bind].
  eexists. eexists. split; [reflexivity|].
  unfold LoadState, le16, le32.
  cbn [app read_uint16 read_int32 read_uint8 mbind option_bind].
  cbn [loadInterrupts set_halted set_interruptsOn set_interruptsEnabling
       set_timerCounter set_CPU gb_Memory].
  rewrite Hload. cbn [mbind option_bind].
  split; [reflexivity|].
  cbn [set_Memory interruptsEnabling interruptsOn halted].
  exact (conj He (conj Ho Hh)).
Qed.
End SaveLoad.

(** ** The theorems on a machine with the flat address space *)

(** C5, the claim as stated fails: halted with interrupts off, with the Timer
    line requested and enabled, interrupt evaluation un-halts the machine
    and reports 20 cycles, and the Timer request bit is still set. *)
Lemma halted_request_bit_kept :
  let gb := flat_machine 0x04 0x04 0 0 0 0x1234 0xFFFE false false true in
  (doInterrupts gb).1 = 20 ∧
  halted (doInterrupts gb).2 = false ∧
  bits.Test (HighRAM_at (gb_Memory (doInterrupts gb).2) 0x0F) 2 = true.
Proof. cbv zeta. repeat split; vm_compute; reflexivity. Qed.

Lemma halted_interrupt_unhalts_witness :
  let gb := flat_machine 0x04 0x04 0 0 0 0x1234 0xFFFE false false true in
  doInterrupts gb = (20, set_halted gb false) ∧
  halted (doInterrupts gb).2 = false ∧
  gb_Memory (doInterrupts gb).2 = gb_Memory gb ∧
  gb_CPU (doInterrupts gb).2 = gb_CPU gb ∧
  interruptsOn (doInterrupts gb).2 = false.
Proof.
  cbv zeta.
  apply (halted_interrupt_unhalts
           (flat_machine 0x04 0x04 0 0 0 0x1234 0xFFFE false false true) 2).
  - reflexivity.
  - reflexivity.
  - reflexivity.
  - vm_compute. intros Hc. discriminate Hc.
  - lia.
  - reflexivity.
  - reflexivity.
Defined.

Lemma interrupt_priority_witness :
  let gb := flat_machine 0x05 0x05 0 0 0 0x1234 0xFFFE false true false in
  (doInterrupts gb).1 = 20 ∧
  PC (gb_CPU (doInterrupts gb).2) = 0x40 ∧
  bits.Test (HighRAM_at (gb_Memory (doInterrupts gb).2) 0x0F) 0 = false ∧
  bits.Test (HighRAM_at (gb_Memory (doInterrupts gb).2) 0x0F) 2 = true.
Proof.
  cbv zeta.
  assert (Hall := interrupt_priority
    (flat_machine 0x05 0x05 0 0 0 0x1234 0xFFFE false true false) flat_laws).
  destruct Hall as (Hcycles & _ & _ & Hpc & _ & _ & Hbit0 & Hbit2).
  - reflexivity.
  - reflexivity.
  - reflexivity.
  - reflexivity.
  - vm_compute. intros Hc. discriminate Hc.
  - cbn. lia.
  - reflexivity.
  - reflexivity.
  - reflexivity.
  - reflexivity.
  - vm_compute. intros Hc. discriminate Hc.
  - vm_compute. intros Hc. discriminate Hc.
  - exact (conj Hcycles (conj Hpc (conj Hbit0 Hbit2))).
Defined.

Lemma flat_stack_cells_store a1 a2 :
  0xFF00 ≤ a1 < 0x10000 → 0xFF00 ≤ a2 < 0x10000 → a1 ≠ a2 →
  @stack_cells_store (Z → Z) flat a1 a2.
Proof.
  intros H1 H2 Hne.
  assert (L1 : (0xFF00 <=? a1) = true) by (apply Z.leb_le; lia).
  assert (L2 : (0xFF00 <=? a2) = true) by (apply Z.leb_le; lia).
  repeat split.
  - intros m a x Hwf. apply (Write_well_formed flat_laws). exact Hwf.
  - intros m x Hwf _. cbn [Memory_Read Memory_Write flat].
    unfold flat_Read, flat_Write. rewrite L1.
    apply HighRAM_at_assign_eq; [exact Hwf | lia].
  - intros m x Hwf _. cbn [Memory_Read Memory_Write flat].
    unfold flat_Read, flat_Write. rewrite L2.
    apply HighRAM_at_assign_eq; [exact Hwf | lia].
  - intros m x Hwf. cbn [Memory_Read Memory_Write flat].
    unfold flat_Read, flat_Write. rewrite L1, L2.
    apply HighRAM_at_assign_ne; lia.
Qed.



(** C6, the claim as stated fails.  On the flat address space, which keeps
    the request register as [InterruptFlagLaws] says, with interrupts on, the
    machine not halted, no pending enable, and V-Blank and Timer requested
    and enabled, but the stack pointer at 0xFF11: V-Blank is serviced (20
    cycles, program counter 0x40), and the low byte of the program counter
    pushed, 0x00, lands on the request register 0xFF0F, so that the Timer
    request bit is clear afterwards. *)
Lemma interrupt_priority_stack_on_request_register :
  let gb := flat_machine 0x05 0x05 0 0 0 0x1200 0xFF11 false true false in
  (bits.Test (HighRAM_at (gb_Memory gb) 0x0F) 0 = true ∧
   bits.Test (HighRAM_at (gb_Memory gb) 0x0F) 2 = true ∧
   bits.Test (HighRAM_at (gb_Memory gb) 0xFF) 0 = true ∧
   bits.Test (HighRAM_at (gb_Memory gb) 0xFF) 2 = true) ∧
  (doInterrupts gb).1 = 20 ∧
  PC (gb_CPU (doInterrupts gb).2) = 0x40 ∧
  bits.Test (HighRAM_at (gb_Memory (doInterrupts gb).2) 0x0F) 2 = false.
Proof. cbv zeta. repeat split; vm_compute; reflexivity. Qed.

Lemma timer_threshold_witness :
  let gb := flat_machine 0 0 0xFF 0x7B 0x05 0x0150 0xFFFE false false false in
  getClockFreqCount gb = 16 ∧
  ∃ gb',
    updateTimers 1 gb 16 = Some gb' ∧
    timerCounter gb' = 0 ∧
    HighRAM_at (gb_Memory gb') 0x05 = 0x7B ∧
    bits.Test (HighRAM_at (gb_Memory gb') 0x0F) 2 = true.
Proof.
  cbv zeta.
  assert (Hall := timer_threshold
    (flat_machine 0 0 0xFF 0x7B 0x05 0x0150 0xFFFE false false false) 1
    flat_laws).
  destruct Hall as (_ & T1 & _ & _ & gb' & Hrun & Hcounter & _ & Hreload).
  - reflexivity.
  - lia.
  - reflexivity.
  - reflexivity.
  - change (0 ≤ 0xFF < 0x100). lia.
  - split; [apply T1; reflexivity|].
    destruct (Hreload eq_refl) as [Htima Hbit].
    rewrite (T1 eq_refl) in Hrun.
    exists gb'. exact (conj Hrun (conj Hcounter (conj Htima Hbit))).
Defined.

Lemma SaveState_LoadState_flags_witness :
  let gb := flat_machine 0 0 0 0 0 0x0150 0xFFFE false false true in
  ∃ stream gb',
    SaveState gb = Some stream ∧
    LoadState gb stream = Some gb' ∧
    interruptsEnabling gb' = true ∧
    interruptsOn gb' = true ∧
    halted gb' = false.
Proof.
  cbv zeta.
  apply (SaveState_LoadState_flags
    (flat_machine 0 0 0 0 0 0x0150 0xFFFE false false true)
    (flat_machine 0 0 0 0 0 0x0150 0xFFFE false false true)
    (HighRAM (gb_Memory
       (flat_machine 0 0 0 0 0 0x0150 0xFFFE false false true)))
    (gb_Memory (flat_machine 0 0 0 0 0 0x0150 0xFFFE false false true))).
  - reflexivity.
  - reflexivity.
Defined.

(** * Further properties of the banking controllers *)

(** ** What bank-select and RAM writes leave alone *)

Lemma WriteROM_leaves_ROM c address value :
  Rom (base (WriteROM c address value)) = Rom (base c).
Proof.
  destruct c as [r|r|r|r]; cbn [WriteROM base];
    unfold MBC1_WriteROM, MBC1_updateRomBankIfZero, MBC2_WriteROM,
           MBC3_WriteROM, MBC5_WriteROM;
    repeat case_match; reflexivity.
Qed.

(** X1.  [WriteROM] changes neither the ROM image nor the RAM buffer,
    whatever the variant, the address and the value. *)
Theorem WriteROM_leaves_ROM_and_RAM c address value :
  Rom (base (WriteROM c address value)) = Rom (base c) ∧
  Ram (base (WriteROM c address value)) = Ram (base c).
Proof.
  destruct c as [r|r|r|r]; cbn [WriteROM base];
    unfold MBC1_WriteROM, MBC1_updateRomBankIfZero, MBC2_WriteROM,
           MBC3_WriteROM, MBC5_WriteROM;
    repeat case_match;
    cbn [MBC1_BaseMBC MBC2_BaseMBC MBC3_BaseMBC MBC5_BaseMBC
         set_RomBank set_RamEnabled Rom Ram];
    split; reflexivity.
Qed.

Lemma WriteRAM_leaves_ROM c address value c' :
  WriteRAM c address value = Some c' → Rom (base c') = Rom (base c).
Proof.
  destruct c as [r|r|r|r]; cbn [WriteRAM];
    unfold MBC1_WriteRAM, MBC2_WriteRAM, MBC3_WriteRAM, MBC5_WriteRAM;
    intros Hw; repeat case_match; simplify_option_eq; reflexivity.
Qed.

Lemma Read_fixed_bank c a :
  a < 0x4000 → Read c a = Go.index (Rom (base c)) a.
Proof.
  intros Ha. apply Z.ltb_lt in Ha.
  destruct c; cbn [Read base];
    unfold MBC1_Read, MBC2_Read, MBC3_Read, MBC5_Read; rewrite Ha;
    reflexivity.
Qed.

(** X2.  The ROM image is immutable and bank 0 is fixed: after any sequence of
    bank-select and RAM writes that did not panic the controller holds the
    image it started with, and a read below 0x4000 returns the byte of the
    image at that address, None beyond the end of the image. *)
Theorem rom_is_immutable c ws c' :
  run c ws = Some c' →
  Rom (base c') = Rom (base c) ∧
  ∀ a, a < 0x4000 → Read c' a = Go.index (Rom (base c)) a.
Proof.
  intros Hrun.
  assert (Hrom : Rom (base c') = Rom (base c)).
  { revert c Hrun. induction ws as [|[a v|a v] ws IH]; intros c Hrun;
      cbn [run] in Hrun.
    - injection Hrun as ->. reflexivity.
    - rewrite (IH _ Hrun). apply WriteROM_leaves_ROM.
    - destruct (WriteRAM c a v) as [c1|] eqn:Hw; [|discriminate Hrun].
      cbn [mbind option_bind] in Hrun.
      rewrite (IH _ Hrun). apply (WriteRAM_leaves_ROM _ _ _ _ Hw). }
  split; [exact Hrom|].
  intros a Ha. rewrite Read_fixed_bank by exact Ha. rewrite Hrom.
  reflexivity.
Qed.

Lemma rom_is_immutable_witness :
  Rom (base (WriteROM (WriteROM (mbc1 (NewMBC1 [0x31; 0xFE; 0xFF]))
                         0x2000 0x05) 0x0000 0x0A))
    = [0x31; 0xFE; 0xFF] ∧
  ∀ a, a < 0x4000 →
    Read (WriteROM (WriteROM (mbc1 (NewMBC1 [0x31; 0xFE; 0xFF]))
                      0x2000 0x05) 0x0000 0x0A) a
    = Go.index [0x31; 0xFE; 0xFF] a.
Proof.
  apply (rom_is_immutable (mbc1 (NewMBC1 [0x31; 0xFE; 0xFF]))
           [ToROM 0x2000 0x05; ToRAM 0xA000 0x07; ToROM 0x0000 0x0A]).
  reflexivity.
Defined.

(** X3.  A RAM write while RAM is disabled is dropped: the controller is
    returned as it is, for every address, in the RAM window or not, and there
    is no panic. *)
Theorem WriteRAM_disabled_is_dropped c address value :
  RamEnabled (base c) = false → WriteRAM c address value = Some c.
Proof.
  intros Hoff.
  destruct c as [r|r|r|r]; cbn [WriteRAM base] in *;
    unfold MBC1_WriteRAM, MBC2_WriteRAM, MBC3_WriteRAM, MBC5_WriteRAM;
    rewrite Hoff; reflexivity.
Qed.

Lemma WriteRAM_disabled_is_dropped_witness :
  WriteRAM (mbc3 (NewMBC3 [])) 0x1234 0xFF = Some (mbc3 (NewMBC3 [])).
Proof.
  apply (WriteRAM_disabled_is_dropped (mbc3 (NewMBC3 [])) 0x1234 0xFF).
  reflexivity.
Defined.

(** ** RAM written is RAM read *)

(** The controller has a RAM bank selected, not an RTC register. *)
Definition ram_bank_selected (c : BankingController) : Prop :=
  match c with
  | mbc3 r => MBC3_RamBank r < 0x4
  | _ => True
  end.

(** The byte a RAM write stores: MBC2 keeps the low nibble only. *)
Definition stored_byte (c : BankingController) (value : Z) : Z :=
  match c with
  | mbc2 _ => Z.land value 0xF
  | _ => value
  end.

(** The RAM bank a window address is read from; MBC2 has one bank. *)
Definition selected_ram_bank (c : BankingController) : Z :=
  match c with
  | mbc1 r => MBC1_RamBank r
  | mbc2 _ => 0
  | mbc3 r => MBC3_RamBank r
  | mbc5 r => MBC5_RamBank r
  end.

Lemma Read_ram_window c a :
  invariant c → ram_bank_selected c → 0xA000 ≤ a < 0xC000 →
  Read c a = Go.index (Ram (base c))
               (0x2000 * selected_ram_bank c + (a - 0xA000)).
Proof.
  intros Hinv Hsel Ha.
  assert (H4 : (a <? 0x4000) = false) by (apply Z.ltb_ge; lia).
  assert (H8 : (a <? 0x8000) = false) by (apply Z.ltb_ge; lia).
  destruct c as [r|r|r|r];
    cbn [Read base selected_ram_bank invariant ram_bank_selected] in *;
    unfold MBC1_Read, MBC2_Read, MBC3_Read, MBC5_Read; rewrite H4, H8;
    repeat match goal with H : _ ∧ _ |- _ => destruct H end.
  - rewrite ramIndex_window by lia. reflexivity.
  - rewrite uint16_small by lia. f_equal; lia.
  - assert (Hs : (0x4 <=? MBC3_RamBank r) = false) by (apply Z.leb_gt; lia).
    rewrite Hs. rewrite ramIndex_window by lia. reflexivity.
  - rewrite ramIndex_window by lia. reflexivity.
Qed.

Lemma WriteRAM_ram_window c a v :
  invariant c → ram_bank_selected c → 0xA000 ≤ a < 0xC000 →
  RamEnabled (base c) = true →
  ∃ c', WriteRAM c a v = Some c' ∧
        Ram (base c') = <[Z.to_nat (0x2000 * selected_ram_bank c
                                    + (a - 0xA000)) := stored_byte c v]>
                          (Ram (base c)) ∧
        selected_ram_bank c' = selected_ram_bank c ∧
        (ram_bank_selected c' ∧ invariant c').
Proof.
  intros Hinv Hsel Ha Hon.
  assert (Hgoal : ∃ c', WriteRAM c a v = Some c' ∧
        Ram (base c') = <[Z.to_nat (0x2000 * selected_ram_bank c
                                    + (a - 0xA000)) := stored_byte c v]>
                          (Ram (base c)) ∧
        selected_ram_bank c' = selected_ram_bank c ∧ ram_bank_selected c').
  { destruct c as [r|r|r|r];
      cbn [WriteRAM base selected_ram_bank invariant ram_bank_selected
           stored_byte] in *;
      unfold MBC1_WriteRAM, MBC2_WriteRAM, MBC3_WriteRAM, MBC5_WriteRAM;
      rewrite Hon;
      repeat match goal with H : _ ∧ _ |- _ => destruct H end.
    - rewrite ramIndex_window by lia. rewrite assign_Some by lia.
      eexists. split; [reflexivity|]. repeat split.
    - rewrite uint16_small by lia. rewrite assign_Some by lia.
      eexists. split; [reflexivity|]. cbn [base MBC2_BaseMBC set_Ram Ram].
      repeat split; try reflexivity; do 2 f_equal; lia.
    - assert (Hs : (0x4 <=? MBC3_RamBank r) = false) by (apply Z.leb_gt; lia).
      rewrite Hs. rewrite ramIndex_window by lia. rewrite assign_Some by lia.
      eexists. split; [reflexivity|]. repeat split. exact Hsel.
    - rewrite ramIndex_window by lia. rewrite assign_Some by lia.
      eexists. split; [reflexivity|]. repeat split. }
  destruct Hgoal as (c' & Hw & Hram & Hbank & Hsel').
  exists c'. repeat split; try assumption.
  apply (invariant_WriteRAM _ _ _ _ Hw Hinv).
Qed.

(** X4.  With RAM enabled and a RAM bank selected, in a state the controller can
    be in, a byte written at an address of the RAM window is the byte read
    back at that address (its low nibble on MBC2), and every other address of
    the window reads as before. *)
Theorem ram_write_then_read c a v :
  reachable c →
  ram_bank_selected c →
  RamEnabled (base c) = true →
  0xA000 ≤ a < 0xC000 →
  ∃ c',
    WriteRAM c a v = Some c' ∧
    Read c' a = Some (stored_byte c v) ∧
    ∀ a', 0xA000 ≤ a' < 0xC000 → a' ≠ a → Read c' a' = Read c a'.
Proof.
  intros Hreach Hsel Hon Ha.
  apply reachable_invariant in Hreach as Hinv.
  destruct (WriteRAM_ram_window c a v Hinv Hsel Ha Hon)
    as (c' & Hw & Hram & Hbank & Hsel' & Hinv').
  assert (Hlen : 0 ≤ 0x2000 * selected_ram_bank c + (a - 0xA000)
                 < Z.of_nat (length (Ram (base c)))).
  { destruct c as [r|r|r|r];
      cbn [selected_ram_bank invariant base ram_bank_selected] in *;
      repeat match goal with H : _ ∧ _ |- _ => destruct H end; lia. }
  exists c'. split; [exact Hw|]. split.
  - rewrite Read_ram_window by assumption. rewrite Hram, Hbank.
    unfold Go.index. apply list_lookup_insert_eq. lia.
  - intros a' Ha' Hne.
    rewrite !Read_ram_window by assumption. rewrite Hram, Hbank.
    unfold Go.index. apply list_lookup_insert_ne.
    assert (Hb : 0 ≤ selected_ram_bank c).
    { destruct c as [r|r|r|r];
        cbn [selected_ram_bank invariant] in *;
        repeat match goal with H : _ ∧ _ |- _ => destruct H end; lia. }
    lia.
Qed.

Lemma ram_write_then_read_witness :
  ∃ c',
    WriteRAM (WriteROM (mbc2 (NewMBC2 [])) 0x0000 0x0A) 0xA010 0x5C = Some c' ∧
    Read c' 0xA010 = Some 0x0C ∧
    ∀ a', 0xA000 ≤ a' < 0xC000 → a' ≠ 0xA010 →
      Read c' a' = Read (WriteROM (mbc2 (NewMBC2 [])) 0x0000 0x0A) a'.
Proof.
  apply (ram_write_then_read (WriteROM (mbc2 (NewMBC2 [])) 0x0000 0x0A)
           0xA010 0x5C).
  - apply reach_WriteROM; [apply reach_NewMBC2 | lia | lia].
  - exact I.
  - reflexivity.
  - lia.
Defined.

(** ** The RTC registers of MBC3 *)

(** X5.  With RAM enabled and an RTC register selected (4 to 15), a write stores
    the value in the live register whatever the address is, and leaves the
    latched file alone; a read at or above 0x8000 then returns the value
    written when the latch is clear, and still the latched register,
    unchanged, when it is set. *)
Theorem MBC3_rtc_write_then_read r address value :
  reachable (mbc3 r) →
  RamEnabled (MBC3_BaseMBC r) = true →
  0x4 ≤ MBC3_RamBank r < 0x10 →
  ∃ r',
    MBC3_WriteRAM r address value = Some r' ∧
    Go.index (MBC3_Rtc r') (MBC3_RamBank r) = Some value ∧
    MBC3_LatchedRtc r' = MBC3_LatchedRtc r ∧
    ∀ a, 0x8000 ≤ a →
      MBC3_Read r' a = if MBC3_Latched r then MBC3_Read r a else Some value.
Proof.
  intros Hreach Hon Hsel.
  apply reachable_invariant in Hreach as (_ & Hrtc & _ & _ & _).
  assert (Hs : (0x4 <=? MBC3_RamBank r) = true) by (apply Z.leb_le; lia).
  unfold MBC3_WriteRAM. rewrite Hon, Hs.
  rewrite assign_Some by lia. cbn [mbind option_bind].
  eexists. split; [reflexivity|].
  cbn [MBC3_Rtc MBC3_LatchedRtc].
  assert (Hstored : Go.index (<[Z.to_nat (MBC3_RamBank r) := value]>
                                (MBC3_Rtc r)) (MBC3_RamBank r) = Some value).
  { unfold Go.index. apply list_lookup_insert_eq. lia. }
  split; [exact Hstored|]. split; [reflexivity|].
  intros a Ha.
  assert (H4 : (a <? 0x4000) = false) by (apply Z.ltb_ge; lia).
  assert (H8 : (a <? 0x8000) = false) by (apply Z.ltb_ge; lia).
  unfold MBC3_Read. cbn [MBC3_BaseMBC MBC3_RamBank MBC3_Latched MBC3_Rtc
                         MBC3_LatchedRtc].
  rewrite H4, H8, Hs. destruct (MBC3_Latched r); [reflexivity|exact Hstored].
Qed.

Lemma MBC3_rtc_write_then_read_witness :
  ∃ r',
    MBC3_WriteRAM (MBC3_WriteROM (MBC3_WriteROM (NewMBC3 []) 0x0000 0x0A)
                     0x4000 0x08) 0x0000 0x3B = Some r' ∧
    Go.index (MBC3_Rtc r') 0x08 = Some 0x3B ∧
    MBC3_LatchedRtc r' = Go.make 0x10 ∧
    ∀ a, 0x8000 ≤ a → MBC3_Read r' a = Some 0x3B.
Proof.
  apply (MBC3_rtc_write_then_read
           (MBC3_WriteROM (MBC3_WriteROM (NewMBC3 []) 0x0000 0x0A)
              0x4000 0x08) 0x0000 0x3B).
  - apply (reach_WriteROM
             (WriteROM (mbc3 (NewMBC3 [])) 0x0000 0x0A) 0x4000 0x08);
      [apply reach_WriteROM; [apply reach_NewMBC3 | lia | lia] | lia | lia].
  - reflexivity.
  - cbn. lia.
Defined.

(** ** The bank number of MBC5 *)

Lemma MBC5_low_then_high bank lo hi :
  0 ≤ bank < 0x200 → 0 ≤ lo < 0x100 → 0 ≤ hi < 0x100 →
  Z.lor (Z.land (Z.lor (Z.land bank 0x100) lo) 0xFF)
        (Go.uint32 (Z.shiftl (Z.land hi 0x01) 8))
    = lo + 0x100 * (hi mod 2).
Proof.
  intros Hb Hl Hh.
  pose (P := λ b, forall_below 256 (λ l,
               Z.land (Z.lor (Z.land b 0x100) l) 0xFF =? l)).
  assert (HP : P bank = true).
  { apply (forall_below_spec 512); [vm_compute; reflexivity | lia]. }
  apply (forall_below_spec 256) with (x := lo) in HP; [|lia].
  apply Z.eqb_eq in HP. rewrite HP.
  pose (Q := λ l, forall_below 256 (λ h,
               Z.lor l (Go.uint32 (Z.shiftl (Z.land h 0x01) 8))
               =? l + 0x100 * (h mod 2))).
  assert (HQ : Q lo = true).
  { apply (forall_below_spec 256); [vm_compute; reflexivity | lia]. }
  apply (forall_below_spec 256) with (x := hi) in HQ; [|lia].
  apply Z.eqb_eq in HQ. exact HQ.
Qed.

Lemma MBC5_high_then_low bank lo hi :
  0 ≤ bank < 0x200 → 0 ≤ lo < 0x100 → 0 ≤ hi < 0x100 →
  Z.lor (Z.land (Z.lor (Z.land bank 0xFF)
                       (Go.uint32 (Z.shiftl (Z.land hi 0x01) 8))) 0x100) lo
    = lo + 0x100 * (hi mod 2).
Proof.
  intros Hb Hl Hh.
  pose (P := λ b, forall_below 256 (λ h,
               Z.land (Z.lor (Z.land b 0xFF)
                             (Go.uint32 (Z.shiftl (Z.land h 0x01) 8))) 0x100
               =? 0x100 * (h mod 2))).
  assert (HP : P bank = true).
  { apply (forall_below_spec 512); [vm_compute; reflexivity | lia]. }
  apply (forall_below_spec 256) with (x := hi) in HP; [|lia].
  apply Z.eqb_eq in HP. rewrite HP.
  pose (Q := λ h, forall_below 256 (λ l,
               Z.lor (0x100 * (h mod 2)) l =? l + 0x100 * (h mod 2))).
  assert (HQ : Q hi = true).
  { apply (forall_below_spec 256); [vm_compute; reflexivity | lia]. }
  apply (forall_below_spec 256) with (x := lo) in HQ; [|lia].
  apply Z.eqb_eq in HQ. exact HQ.
Qed.

(** X6.  In a state MBC5 can be in, a write of [lo] to [0x2000,0x3000) and a write
    of [hi] to [0x3000,0x4000), in either order, select ROM bank
    [lo + 256 * (hi mod 2)]: the low eight bits and bit 8 of the nine-bit
    bank number, with no bump of bank 0. *)
Theorem MBC5_bank_number r a_lo a_hi lo hi :
  reachable (mbc5 r) →
  0x2000 ≤ a_lo < 0x3000 → 0x3000 ≤ a_hi < 0x4000 →
  0 ≤ lo < 0x100 → 0 ≤ hi < 0x100 →
  RomBank (MBC5_BaseMBC (MBC5_WriteROM (MBC5_WriteROM r a_lo lo) a_hi hi))
    = lo + 0x100 * (hi mod 2) ∧
  RomBank (MBC5_BaseMBC (MBC5_WriteROM (MBC5_WriteROM r a_hi hi) a_lo lo))
    = lo + 0x100 * (hi mod 2).
Proof.
  intros Hreach Hal Hah Hlo Hhi.
  apply reachable_invariant in Hreach as (_ & _ & Hbank).
  assert (L1 : (a_lo <? 0x2000) = false) by (apply Z.ltb_ge; lia).
  assert (L2 : (a_lo <? 0x3000) = true) by (apply Z.ltb_lt; lia).
  assert (H1 : (a_hi <? 0x2000) = false) by (apply Z.ltb_ge; lia).
  assert (H2 : (a_hi <? 0x3000) = false) by (apply Z.ltb_ge; lia).
  assert (H3 : (a_hi <? 0x4000) = true) by (apply Z.ltb_lt; lia).
  unfold MBC5_WriteROM.
  do 3 (rewrite ?L1, ?L2, ?H1, ?H2, ?H3;
        cbn [MBC5_BaseMBC MBC5_RamBank set_RomBank RomBank]).
  split; [apply MBC5_low_then_high | apply MBC5_high_then_low]; assumption.
Qed.

Lemma MBC5_bank_number_witness :
  RomBank (MBC5_BaseMBC (MBC5_WriteROM (MBC5_WriteROM (NewMBC5 [])
                                          0x2000 0x34) 0x3000 0x01))
    = 0x34 + 0x100 * (0x01 mod 2) ∧
  RomBank (MBC5_BaseMBC (MBC5_WriteROM (MBC5_WriteROM (NewMBC5 [])
                                          0x3000 0x01) 0x2000 0x34))
    = 0x34 + 0x100 * (0x01 mod 2).
Proof.
  apply (MBC5_bank_number (NewMBC5 []) 0x2000 0x3000 0x34 0x01).
  - apply reach_NewMBC5.
  - lia.
  - lia.
  - lia.
  - lia.
Defined.

(** ** Save data *)

(** X7.  [GetSaveData] returns the content of the RAM buffer, and after
    [LoadSaveData] that content is the data loaded, whatever its length;
    ROM image, ROM bank and RAM-enabled flag are as before the load. *)
Theorem save_data_round_trip c data :
  GetSaveData c = Ram (base c) ∧
  GetSaveData (LoadSaveData c data) = data ∧
  Rom (base (LoadSaveData c data)) = Rom (base c) ∧
  RomBank (base (LoadSaveData c data)) = RomBank (base c) ∧
  RamEnabled (base (LoadSaveData c data)) = RamEnabled (base c).
Proof.
  assert (Hget : ∀ c, GetSaveData c = Ram (base c)).
  { intros c0. unfold GetSaveData. apply copy_same_length.
    unfold Go.make. rewrite length_replicate. lia. }
  split; [apply Hget|]. rewrite Hget.
  destruct c; repeat split.
Qed.

(** X8.  [LoadSaveData] does not look at the length of the data: afterwards a read
    in the RAM window, with a RAM bank selected, indexes the loaded data at
    [0x2000 * bank + (address - 0xA000)], and panics when the data is too
    short for that index. *)
Theorem read_after_LoadSaveData c data a :
  reachable c →
  ram_bank_selected c →
  0xA000 ≤ a < 0xC000 →
  Read (LoadSaveData c data) a
    = Go.index data (0x2000 * selected_ram_bank c + (a - 0xA000)) ∧
  (Z.of_nat (length data) ≤ 0x2000 * selected_ram_bank c + (a - 0xA000) →
   Read (LoadSaveData c data) a = None).
Proof.
  intros Hreach Hsel Ha.
  apply reachable_invariant in Hreach as Hinv.
  assert (H4 : (a <? 0x4000) = false) by (apply Z.ltb_ge; lia).
  assert (H8 : (a <? 0x8000) = false) by (apply Z.ltb_ge; lia).
  assert (Hread : Read (LoadSaveData c data) a
    = Go.index data (0x2000 * selected_ram_bank c + (a - 0xA000))).
  { destruct c as [r|r|r|r];
      cbn [Read LoadSaveData selected_ram_bank invariant ram_bank_selected]
        in *;
      unfold MBC1_Read, MBC2_Read, MBC3_Read, MBC5_Read; rewrite H4, H8;
      cbn [MBC1_BaseMBC MBC2_BaseMBC MBC3_BaseMBC MBC5_BaseMBC set_Ram Ram
           MBC1_RamBank MBC3_RamBank MBC5_RamBank];
      repeat match goal with H : _ ∧ _ |- _ => destruct H end.
    - rewrite ramIndex_window by lia. reflexivity.
    - rewrite uint16_small by lia. f_equal; lia.
    - assert (Hs : (0x4 <=? MBC3_RamBank r) = false) by (apply Z.leb_gt; lia).
      rewrite Hs. rewrite ramIndex_window by lia. reflexivity.
    - rewrite ramIndex_window by lia. reflexivity. }
  split; [exact Hread|].
  intros Hshort. rewrite Hread. apply index_None; [|exact Hshort].
  destruct c as [r|r|r|r]; cbn [selected_ram_bank invariant] in *;
    repeat match goal with H : _ ∧ _ |- _ => destruct H end; lia.
Qed.

Lemma read_after_LoadSaveData_witness :
  Read (LoadSaveData (mbc1 (NewMBC1 [])) [0x11; 0x22]) 0xA002
    = Go.index [0x11; 0x22]
        (0x2000 * selected_ram_bank (mbc1 (NewMBC1 [])) + (0xA002 - 0xA000)) ∧
  (Z.of_nat (length [0x11; 0x22])
     ≤ 0x2000 * selected_ram_bank (mbc1 (NewMBC1 [])) + (0xA002 - 0xA000) →
   Read (LoadSaveData (mbc1 (NewMBC1 [])) [0x11; 0x22]) 0xA002 = None).
Proof.
  apply (read_after_LoadSaveData (mbc1 (NewMBC1 [])) [0x11; 0x22] 0xA002).
  - apply reach_NewMBC1.
  - exact I.
  - lia.
Defined.

(** ** Save states of MBC1 and MBC3 *)

(** An implementation of the base's part of the save state, to run the
    theorems on: one byte, the ROM bank. *)
Definition sample_base : BaseMBCMethods := {|
  BaseMBC_SaveState := λ b, Some [Go.uint8 (RomBank b)];
  BaseMBC_LoadState := λ b reader,
    '(x, reader) ← read_byte reader; Some (set_RomBank b x, reader)
|}.

Section SaveStates.
Context `{BaseMBCMethods}.

(** X9.  What is saved of an MBC1 a controller can be in is what is loaded: when
    the base reads back what it wrote, [LoadState] on the stream of
    [SaveState] restores the banking mode and the RAM bank, and leaves the
    rest of the stream. *)
Theorem MBC1_SaveState_LoadState r r0 bytes b' rest :
  reachable (mbc1 r) →
  BaseMBC_SaveState (MBC1_BaseMBC r) = Some bytes →
  (∀ tail, BaseMBC_LoadState (MBC1_BaseMBC r0) (bytes ++ tail)
           = Some (b', tail)) →
  ∃ stream,
    MBC1_SaveState r = Some stream ∧
    MBC1_LoadState r0 (stream ++ rest)
      = Some (mkMBC1 b' (MBC1_RamBank r) (MBC1_RomBanking r), rest).
Proof.
  intros Hreach Hsave Hload.
  apply reachable_invariant in Hreach as (_ & Hbank & _).
  unfold MBC1_SaveState. rewrite Hsave. cbn [mbind option_bind].
  eexists. split; [reflexivity|].
  unfold MBC1_LoadState. rewrite <- !app_assoc. rewrite Hload.
  cbn [mbind option_bind app read_byte].
  rewrite (uint8_small (MBC1_RamBank r)) by lia.
  destruct (MBC1_RomBanking r); reflexivity.
Qed.

(** X10.  The same for MBC3: select, live and latched RTC files and latch flag
    come back as saved, when the controller loaded into has its two 16-entry
    files. *)
Theorem MBC3_SaveState_LoadState r r0 bytes b' rest :
  reachable (mbc3 r) →
  reachable (mbc3 r0) →
  BaseMBC_SaveState (MBC3_BaseMBC r) = Some bytes →
  (∀ tail, BaseMBC_LoadState (MBC3_BaseMBC r0) (bytes ++ tail)
           = Some (b', tail)) →
  ∃ stream,
    MBC3_SaveState r = Some stream ∧
    MBC3_LoadState r0 (stream ++ rest)
      = Some (mkMBC3 b' (MBC3_RamBank r) (MBC3_Rtc r) (MBC3_LatchedRtc r)
                     (MBC3_Latched r), rest).
Proof.
  intros Hreach Hreach0 Hsave Hload.
  apply reachable_invariant in Hreach as (_ & Hrtc & Hlat & Hbank & _).
  apply reachable_invariant in Hreach0 as (_ & Hrtc0 & Hlat0 & _ & _).
  assert (Hfill : ∀ p src tail,
            length p = 16%nat → length src = 16%nat →
            reader_Read p (src ++ tail) = Some (src, tail)).
  { intros p src tail Hp Hs.
    destruct p as [|p0 p]; [discriminate Hp|].
    destruct src as [|s0 src]; [discriminate Hs|].
    cbn [reader_Read app]. unfold Go.copy. rewrite Hp.
    change (s0 :: src ++ tail) with ((s0 :: src) ++ tail).
    rewrite take_app_length' by (symmetry; exact Hs).
    rewrite drop_app_length' by (symmetry; exact Hs).
    rewrite drop_ge by (rewrite length_app; simpl in *; lia).
    rewrite app_nil_r. reflexivity. }
  unfold MBC3_SaveState. rewrite Hsave. cbn [mbind option_bind].
  eexists. split; [reflexivity|].
  unfold MBC3_LoadState. rewrite <- !app_assoc. rewrite Hload.
  cbn [mbind option_bind app read_byte].
  rewrite (Hfill _ _ _ Hrtc0 Hrtc). cbn [mbind option_bind].
  rewrite (Hfill _ _ _ Hlat0 Hlat). cbn [mbind option_bind app read_byte].
  rewrite (uint8_small (MBC3_RamBank r)) by lia.
  destruct (MBC3_Latched r); reflexivity.
Qed.
End SaveStates.

Lemma MBC1_SaveState_LoadState_witness :
  ∃ stream,
    @MBC1_SaveState sample_base (MBC1_WriteROM (NewMBC1 []) 0x4000 0x02)
      = Some stream ∧
    @MBC1_LoadState sample_base (NewMBC1 []) (stream ++ [0x77])
      = Some (mkMBC1 (set_RomBank (MBC1_BaseMBC (NewMBC1 [])) 1) 0x02 false,
              [0x77]).
Proof.
  apply (@MBC1_SaveState_LoadState sample_base
           (MBC1_WriteROM (NewMBC1 []) 0x4000 0x02) (NewMBC1 []) [1]
           (set_RomBank (MBC1_BaseMBC (NewMBC1 [])) 1) [0x77]).
  - apply (reach_WriteROM (mbc1 (NewMBC1 [])) 0x4000 0x02);
      [apply reach_NewMBC1 | lia | lia].
  - reflexivity.
  - intros tail. reflexivity.
Defined.

Lemma MBC3_SaveState_LoadState_witness :
  ∃ stream,
    @MBC3_SaveState sample_base (MBC3_WriteROM (NewMBC3 []) 0x6000 0x00)
      = Some stream ∧
    @MBC3_LoadState sample_base (NewMBC3 []) (stream ++ [])
      = Some (mkMBC3 (set_RomBank (MBC3_BaseMBC (NewMBC3 [])) 1) 0
                     (MBC3_Rtc (MBC3_WriteROM (NewMBC3 []) 0x6000 0x00))
                     (MBC3_LatchedRtc (MBC3_WriteROM (NewMBC3 []) 0x6000 0x00))
                     true, []).
Proof.
  apply (@MBC3_SaveState_LoadState sample_base
           (MBC3_WriteROM (NewMBC3 []) 0x6000 0x00) (NewMBC3 []) [1]
           (set_RomBank (MBC3_BaseMBC (NewMBC3 [])) 1) []).
  - apply (reach_WriteROM (mbc3 (NewMBC3 [])) 0x6000 0x00);
      [apply reach_NewMBC3 | lia | lia].
  - apply reach_NewMBC3.
  - reflexivity.
  - intros tail. reflexivity.
Defined.

(** ** The two banking modes of MBC1 *)

Definition MBC1_modes (c : BankingController) : Prop :=
  match c with
  | mbc1 r =>
      (MBC1_RomBanking r = true → MBC1_RamBank r = 0) ∧
      (MBC1_RomBanking r = false → 0 ≤ RomBank (MBC1_BaseMBC r) ≤ 0x1F)
  | _ => True
  end.

(** X11.  In every state MBC1 can be in, RAM bank 0 is selected while the
    controller is in ROM-banking mode, and the ROM bank has no bits above the
    low five while it is in RAM-banking mode. *)
Theorem MBC1_mode_invariant c : reachable c → MBC1_modes c.
Proof.
  induction 1 as [data|data|data|data|c a v Hc IH Ha Hv|c a v c' Hc IH Ha Hv Hw].
  - split; [discriminate | intros _; cbn; lia].
  - exact I.
  - exact I.
  - exact I.
  - apply reachable_invariant in Hc as Hinv.
    pose proof (invariant_WriteROM c a v Hv Hinv) as Hinv'.
    destruct c as [r|r|r|r]; try exact I.
    destruct Hinv' as (_ & _ & Hbank' & Hmode').
    destruct IH as [Hrom Hram].
    cbn [WriteROM MBC1_modes]. split.
    + unfold MBC1_WriteROM, MBC1_updateRomBankIfZero.
      repeat case_match;
        cbn [MBC1_RomBanking MBC1_RamBank]; try assumption;
        try (intros _; reflexivity); intros Hm; try discriminate Hm;
        congruence.
    + intros Hm. specialize (Hmode' Hm). lia.
  - destruct c as [r|r|r|r]; cbn [WriteRAM] in Hw;
      unfold MBC1_WriteRAM, MBC2_WriteRAM, MBC3_WriteRAM, MBC5_WriteRAM in Hw;
      repeat case_match; simplify_option_eq; try exact I; exact IH.
Qed.

Lemma MBC1_mode_invariant_witness :
  MBC1_modes (WriteROM (WriteROM (mbc1 (NewMBC1 [])) 0x4000 0x03)
                0x6000 0x00).
Proof.
  apply (MBC1_mode_invariant
           (WriteROM (WriteROM (mbc1 (NewMBC1 [])) 0x4000 0x03) 0x6000 0x00)).
  apply reach_WriteROM;
    [apply reach_WriteROM; [apply reach_NewMBC1 | lia | lia] | lia | lia].
Defined.

(** * Further properties of the machine *)

(** ** The divider *)

Section Divider.
Context {D : Type} `{MemoryMethods D}.

(** X12.  For a step of at most 255 cycles the divider counter stays below 255: it
    is the sum of the counter and the step modulo 255, and the DIV register
    goes up by one, modulo 256, exactly when that sum reaches 255.  The rest
    of [HighRAM], the timer counter and the interrupt flags are left alone. *)
Theorem dividerRegister_counter (gb : Gameboy D) cycles :
  well_formed (gb_Memory gb) →
  0 ≤ Divider (gb_CPU gb) < 255 →
  0 ≤ cycles ≤ 255 →
  0 ≤ Divider (gb_CPU (dividerRegister gb cycles)) < 255 ∧
  Divider (gb_CPU (dividerRegister gb cycles))
    = (Divider (gb_CPU gb) + cycles) mod 255 ∧
  HighRAM_at (gb_Memory (dividerRegister gb cycles)) 0x04
    = (if 255 <=? Divider (gb_CPU gb) + cycles
       then (HighRAM_at (gb_Memory gb) 0x04 + 1) mod 256
       else HighRAM_at (gb_Memory gb) 0x04) ∧
  (∀ i, 0 ≤ i → i ≠ 0x04 →
     HighRAM_at (gb_Memory (dividerRegister gb cycles)) i
       = HighRAM_at (gb_Memory gb) i) ∧
  timerCounter (dividerRegister gb cycles) = timerCounter gb ∧
  halted (dividerRegister gb cycles) = halted gb ∧
  interruptsOn (dividerRegister gb cycles) = interruptsOn gb.
Proof.
  intros Hwf Hd Hc.
  assert (Hframe : ∀ i, 0 ≤ i → i ≠ 0x04 →
     HighRAM_at (gb_Memory (dividerRegister gb cycles)) i
       = HighRAM_at (gb_Memory gb) i).
  { intros i Hi Hne. apply dividerRegister_frame; assumption. }
  unfold dividerRegister in *.
  cbn [set_CPU gb_CPU gb_Memory set_Divider Divider] in *.
  rewrite (int_small (Divider (gb_CPU gb) + cycles)) in * by lia.
  destruct (255 <=? Divider (gb_CPU gb) + cycles) eqn:Hge; bool_facts;
    cbn [set_Memory set_CPU gb_CPU gb_Memory set_Divider Divider
         timerCounter halted interruptsOn] in *.
  - rewrite (int_small (Divider (gb_CPU gb) + cycles - 255)) by lia.
    repeat split; try lia; try assumption.
    + apply (Z.mod_unique _ _ 1); lia.
    + unfold DIV. change (0xFF04 - 0xFF00) with 0x04.
      rewrite HighRAM_at_assign_eq by (trivial || lia). reflexivity.
  - repeat split; try lia; try assumption.
    symmetry. apply Z.mod_small. lia.
Qed.
End Divider.

Lemma dividerRegister_counter_witness :
  let gb := flat_machine 0 0 0 0 0 0x0150 0xFFFE false false false in
  Divider (gb_CPU (dividerRegister
    (set_CPU gb (set_Divider (gb_CPU gb) 250)) 24)) = (250 + 24) mod 255 ∧
  HighRAM_at (gb_Memory (dividerRegister
    (set_CPU gb (set_Divider (gb_CPU gb) 250)) 24)) 0x04 = 1.
Proof.
  cbv zeta.
  assert (Hall := dividerRegister_counter
    (set_CPU (flat_machine 0 0 0 0 0 0x0150 0xFFFE false false false)
       (set_Divider
          (gb_CPU (flat_machine 0 0 0 0 0 0x0150 0xFFFE false false false))
          250)) 24).
  destruct Hall as (_ & Hdiv & Hreg & _).
  - reflexivity.
  - cbn. lia.
  - lia.
  - exact (conj Hdiv Hreg).
Defined.

(** ** Interrupt requests and their service *)

Section Requests.
Context {D : Type} `{MemoryMethods D}.

(** X13.  [requestInterrupt] raises the request bit of its line and leaves the
    other four lines, the rest of [HighRAM], the registers and the flags as
    they are, on an address space that keeps the request register as
    [InterruptFlagLaws] says. *)
Theorem requestInterrupt_raises_line (gb : Gameboy D) line :
  InterruptFlagLaws D →
  well_formed (gb_Memory gb) →
  0 ≤ line < 5 →
  bits.Test (HighRAM_at (gb_Memory (requestInterrupt gb line)) 0x0F) line
    = true ∧
  (∀ j, 0 ≤ j < 5 → j ≠ line →
     bits.Test (HighRAM_at (gb_Memory (requestInterrupt gb line)) 0x0F) j
       = bits.Test (HighRAM_at (gb_Memory gb) 0x0F) j) ∧
  (∀ i, 0 ≤ i < 0x100 → i ≠ 0x0F →
     HighRAM_at (gb_Memory (requestInterrupt gb line)) i
       = HighRAM_at (gb_Memory gb) i) ∧
  gb_CPU (requestInterrupt gb line) = gb_CPU gb ∧
  halted (requestInterrupt gb line) = halted gb ∧
  interruptsOn (requestInterrupt gb line) = interruptsOn gb.
Proof.
  intros Hlaws Hwf Hline. unfold requestInterrupt.
  cbn [set_Memory gb_Memory gb_CPU halted interruptsOn].
  repeat split.
  - rewrite Test_testbit by lia. rewrite (IF_write Hlaws) by (trivial || lia).
    rewrite Set_testbit by lia. rewrite Z.eqb_refl. apply orb_true_r.
  - intros j Hj Hne. rewrite !Test_testbit by lia.
    rewrite (IF_write Hlaws) by (trivial || lia).
    rewrite Set_testbit by lia.
    assert (Hjl : (j =? line) = false) by (apply Z.eqb_neq; exact Hne).
    rewrite Hjl, orb_false_r.
    rewrite <- !Test_testbit by lia.
    apply Test_request_lines. exact Hj.
  - intros i Hi Hne. apply (IF_write_others Hlaws); assumption.
Qed.

Lemma scanInterrupts_none n i req enabled (gb : Gameboy D) :
  (∀ j, i ≤ j < i + Z.of_nat n →
     bits.Test req j && bits.Test enabled j = false) →
  scanInterrupts n i req enabled gb = (0, gb).
Proof.
  revert i. induction n as [|n IH]; intros i Hnone; [reflexivity|].
  cbn [scanInterrupts]. rewrite (Hnone i) by lia.
  apply IH. intros j Hj. apply Hnone. lia.
Qed.

Lemma scanInterrupts_first n i k req enabled (gb : Gameboy D) :
  i ≤ k < i + Z.of_nat n →
  bits.Test req k = true → bits.Test enabled k = true →
  (∀ j, i ≤ j < k → bits.Test req j && bits.Test enabled j = false) →
  scanInterrupts n i req enabled gb = (20, serviceInterrupt gb k).
Proof.
  revert i. induction n as [|n IH]; intros i Hk Hreq Hen Hlow; [lia|].
  cbn [scanInterrupts].
  destruct (decide (k = i)) as [->|Hne].
  - rewrite Hreq, Hen. reflexivity.
  - rewrite (Hlow i) by lia. apply IH; try assumption; [lia|].
    intros j Hj. apply Hlow. lia.
Qed.

Lemma scanInterrupts_cycles n i req enabled (gb : Gameboy D) :
  (scanInterrupts n i req enabled gb).1 = 20 ↔
  ∃ k, i ≤ k < i + Z.of_nat n ∧
       bits.Test req k = true ∧ bits.Test enabled k = true.
Proof.
  revert i. induction n as [|n IH]; intros i; cbn [scanInterrupts].
  - split; [discriminate|]. intros (k & Hk & _). lia.
  - destruct (bits.Test req i && bits.Test enabled i) eqn:Hi.
    + split; [|reflexivity]. intros _. exists i.
      apply andb_true_iff in Hi as [Hr He]. repeat split; [lia|lia|..];
        assumption.
    + rewrite IH. split.
      * intros (k & Hk & Hr & He). exists k. repeat split; [lia|lia|..];
          assumption.
      * intros (k & Hk & Hr & He). exists k.
        destruct (decide (k = i)) as [->|Hne].
        { rewrite Hr, He in Hi. discriminate Hi. }
        repeat split; [lia|lia|..]; assumption.
Qed.
End Requests.

Lemma requestInterrupt_raises_line_witness :
  let gb := flat_machine 0x01 0x1F 0 0 0 0x0150 0xFFFE false true false in
  bits.Test (HighRAM_at (gb_Memory (requestInterrupt gb 4)) 0x0F) 4 = true ∧
  (∀ j, 0 ≤ j < 5 → j ≠ 4 →
     bits.Test (HighRAM_at (gb_Memory (requestInterrupt gb 4)) 0x0F) j
       = bits.Test (HighRAM_at (gb_Memory gb) 0x0F) j).
Proof.
  cbv zeta.
  assert (Hall := requestInterrupt_raises_line
    (flat_machine 0x01 0x1F 0 0 0 0x0150 0xFFFE false true false) 4
    flat_laws).
  destruct Hall as (Hline & Hothers & _).
  - reflexivity.
  - lia.
  - exact (conj Hline Hothers).
Defined.

Section Priority.
Context {D : Type} `{MemoryMethods D}.

Lemma interruptAddresses_line k :
  0 ≤ k < 5 → default 0 (interruptAddresses !! k) = 0x40 + 8 * k.
Proof.
  intros Hk.
  assert (Hcases : k = 0 ∨ k = 1 ∨ k = 2 ∨ k = 3 ∨ k = 4) by lia.
  destruct Hcases as [->|[->|[->|[->| ->]]]]; reflexivity.
Qed.

(** X14.  With interrupts on and no pending enable, halted or not, interrupt
    evaluation services the lowest line that is requested and enabled: it
    reports 20 cycles, clears both flags, pushes the program counter, jumps
    to [0x40 + 8 * line], clears the request bit of that line and leaves the
    request bits of the other lines as they are.  The address space keeps
    the request register as [InterruptFlagLaws] says, and the two stack cells
    are not that register. *)
Theorem lowest_line_is_serviced (gb : Gameboy D) line :
  InterruptFlagLaws D →
  well_formed (gb_Memory gb) →
  interruptsEnabling gb = false →
  interruptsOn gb = true →
  0 ≤ HighRAM_at (gb_Memory gb) 0x0F →
  0 ≤ PC (gb_CPU gb) < 0x10000 →
  0 ≤ line < 5 →
  bits.Test (HighRAM_at (gb_Memory gb) 0x0F) line = true →
  bits.Test (HighRAM_at (gb_Memory gb) 0xFF) line = true →
  (∀ j, 0 ≤ j < line →
     bits.Test (HighRAM_at (gb_Memory gb) 0x0F) j
       && bits.Test (HighRAM_at (gb_Memory gb) 0xFF) j = false) →
  Go.uint16 (register_HiLo (SP (gb_CPU gb)) - 1) ≠ 0xFF0F →
  Go.uint16 (register_HiLo (SP (gb_CPU gb)) - 2) ≠ 0xFF0F →
  (doInterrupts gb).1 = 20 ∧
  PC (gb_CPU (doInterrupts gb).2) = 0x40 + 8 * line ∧
  register_HiLo (SP (gb_CPU (doInterrupts gb).2))
    = Go.uint16 (register_HiLo (SP (gb_CPU gb)) - 2) ∧
  gb_Memory (doInterrupts gb).2
    = Memory_Write
        (Memory_Write
           (Memory_Write (gb_Memory gb) 0xFF0F
              (bits.Reset (Memory_ReadHighRam (gb_Memory gb) 0xFF0F) line))
           (Go.uint16 (register_HiLo (SP (gb_CPU gb)) - 1))
           (Z.shiftr (PC (gb_CPU gb)) 8))
        (Go.uint16 (register_HiLo (SP (gb_CPU gb)) - 2))
        (Z.land (PC (gb_CPU gb)) 0xFF) ∧
  interruptsOn (doInterrupts gb).2 = false ∧
  halted (doInterrupts gb).2 = false ∧
  bits.Test (HighRAM_at (gb_Memory (doInterrupts gb).2) 0x0F) line = false ∧
  (∀ j, 0 ≤ j < 5 → j ≠ line →
     bits.Test (HighRAM_at (gb_Memory (doInterrupts gb).2) 0x0F) j
       = bits.Test (HighRAM_at (gb_Memory gb) 0x0F) j).
Proof.
  intros Hlaws Hwf Hpend Hon Hbyte Hpc Hline Hreq Hen Hlow Hsp1 Hsp2.
  destruct (pushed_bytes _ Hpc) as (Hhi & Hlo & _).
  assert (Hdo : doInterrupts gb = (20, serviceInterrupt gb line)).
  { unfold doInterrupts. rewrite Hpend, Hon. cbn [negb andb]. cbv zeta.
    pose proof (request_positive _ Hbyte) as Hpos.
    apply Z.ltb_lt in Hpos. rewrite Hpos.
    apply (scanInterrupts_first 5 0 line).
    - change (Z.of_nat 5) with 5. lia.
    - rewrite Test_request_lines by lia. exact Hreq.
    - exact Hen.
    - intros j Hj. rewrite Test_request_lines by lia. apply Hlow. lia. }
  rewrite Hdo. clear Hdo.
  unfold serviceInterrupt. rewrite Hon. cbn [negb andb]. cbv zeta.
  rewrite interruptAddresses_line by exact Hline.
  unfold pushStack.
  cbn [fst snd set_CPU set_PC set_SP set_Memory set_halted set_interruptsOn
       gb_Memory gb_CPU PC SP interruptsOn halted register_Set register_HiLo
       reg_value].
  rewrite Hhi, Hlo.
  assert (Hbits : ∀ j, 0 ≤ j < 5 →
    Z.testbit (HighRAM_at
      (Memory_Write
        (Memory_Write
           (Memory_Write (gb_Memory gb) 0xFF0F
              (bits.Reset (Memory_ReadHighRam (gb_Memory gb) 0xFF0F) line))
           (Go.uint16 (register_HiLo (SP (gb_CPU gb)) - 1))
           (Z.shiftr (PC (gb_CPU gb)) 8))
        (Go.uint16 (register_HiLo (SP (gb_CPU gb)) - 2))
        (Z.land (PC (gb_CPU gb)) 0xFF)) 0x0F) j
    = Z.testbit (HighRAM_at (gb_Memory gb) 0x0F) j && negb (j =? line)).
  { intros j Hj.
    rewrite (IF_frame Hlaws), (IF_frame Hlaws);
      try assumption; try (repeat apply (Write_well_formed Hlaws); assumption).
    rewrite (IF_write Hlaws) by (assumption || lia).
    rewrite Reset_testbit by lia.
    rewrite (IF_read Hlaws) by (assumption || lia). reflexivity. }
  repeat split.
  - rewrite Test_testbit by lia. rewrite Hbits by exact Hline.
    rewrite Z.eqb_refl. apply andb_false_r.
  - intros j Hj Hne. rewrite !Test_testbit by lia. rewrite Hbits by exact Hj.
    assert (Hjl : (j =? line) = false) by (apply Z.eqb_neq; exact Hne).
    rewrite Hjl. apply andb_true_r.
Qed.

(** X15.  Interrupt evaluation reports 20 cycles exactly when no enable is pending,
    interrupts are on or the machine is halted, and one of the five lines is
    requested and enabled; otherwise it reports 0 cycles and the machine is
    as before, but for the promotion of a pending enable, which sets
    interrupts-on and clears the pending flag whatever is requested. *)
Theorem doInterrupts_cycles (gb : Gameboy D) :
  0 ≤ HighRAM_at (gb_Memory gb) 0x0F →
  ((doInterrupts gb).1 = 20 ↔
     interruptsEnabling gb = false ∧
     (interruptsOn gb = true ∨ halted gb = true) ∧
     ∃ line, 0 ≤ line < 5 ∧
       bits.Test (HighRAM_at (gb_Memory gb) 0x0F) line = true ∧
       bits.Test (HighRAM_at (gb_Memory gb) 0xFF) line = true) ∧
  ((doInterrupts gb).1 ≠ 20 →
     doInterrupts gb =
       (0, if interruptsEnabling gb
           then set_interruptsEnabling (set_interruptsOn gb true) false
           else gb)).
Proof.
  intros Hbyte.
  pose proof (request_positive _ Hbyte) as Hpos. apply Z.ltb_lt in Hpos.
  assert (Hscan : ∀ gb0 : Gameboy D,
    (scanInterrupts 5 0 (Z.lor (HighRAM_at (gb_Memory gb) 0x0F) 0xE0)
       (HighRAM_at (gb_Memory gb) 0xFF) gb0).1 = 20 ↔
    ∃ line, 0 ≤ line < 5 ∧
       bits.Test (HighRAM_at (gb_Memory gb) 0x0F) line = true ∧
       bits.Test (HighRAM_at (gb_Memory gb) 0xFF) line = true).
  { intros gb0. rewrite scanInterrupts_cycles. split.
    - intros (k & Hk & Hr & He). exists k.
      rewrite Test_request_lines in Hr by lia.
      repeat split; [lia|lia|..]; assumption.
    - intros (k & Hk & Hr & He). exists k.
      rewrite Test_request_lines by lia.
      repeat split; [lia|lia|..]; assumption. }
  unfold doInterrupts.
  destruct (interruptsEnabling gb) eqn:Hpend.
  { cbn [fst]. split; [|intros _; reflexivity].
    split; [discriminate|]. intros (Hc & _). discriminate Hc. }
  destruct (interruptsOn gb) eqn:Hon, (halted gb) eqn:Hhalt;
    cbn [negb andb]; cbv zeta; rewrite ?Hpos.
  - split.
    + rewrite Hscan. split; [intros Hl; repeat split; auto|].
      intros (_ & _ & Hl). exact Hl.
    + intros Hne. rewrite scanInterrupts_none; [reflexivity|].
      intros j Hj. destruct (bits.Test _ j && bits.Test _ j) eqn:Hb;
        [|reflexivity].
      exfalso. apply Hne. apply scanInterrupts_cycles. exists j.
      apply andb_true_iff in Hb as [Hr He]. repeat split; [lia|lia|..];
        assumption.
  - split.
    + rewrite Hscan. split; [intros Hl; repeat split; auto|].
      intros (_ & _ & Hl). exact Hl.
    + intros Hne. rewrite scanInterrupts_none; [reflexivity|].
      intros j Hj. destruct (bits.Test _ j && bits.Test _ j) eqn:Hb;
        [|reflexivity].
      exfalso. apply Hne. apply scanInterrupts_cycles. exists j.
      apply andb_true_iff in Hb as [Hr He]. repeat split; [lia|lia|..];
        assumption.
  - split.
    + rewrite Hscan. split; [intros Hl; repeat split; auto|].
      intros (_ & _ & Hl). exact Hl.
    + intros Hne. rewrite scanInterrupts_none; [reflexivity|].
      intros j Hj. destruct (bits.Test _ j && bits.Test _ j) eqn:Hb;
        [|reflexivity].
      exfalso. apply Hne. apply scanInterrupts_cycles. exists j.
      apply andb_true_iff in Hb as [Hr He]. repeat split; [lia|lia|..];
        assumption.
  - cbn [fst]. split; [|intros _; reflexivity].
    split; [discriminate|]. intros (_ & [Hc|Hc] & _); discriminate Hc.
Qed.
End Priority.

Lemma lowest_line_is_serviced_witness :
  let gb := flat_machine 0x1A 0x18 0 0 0 0x0150 0xFFFE false true true in
  (doInterrupts gb).1 = 20 ∧
  PC (gb_CPU (doInterrupts gb).2) = 0x40 + 8 * 3 ∧
  halted (doInterrupts gb).2 = false ∧
  bits.Test (HighRAM_at (gb_Memory (doInterrupts gb).2) 0x0F) 3 = false.
Proof.
  cbv zeta.
  assert (Hall := lowest_line_is_serviced
    (flat_machine 0x1A 0x18 0 0 0 0x0150 0xFFFE false true true) 3
    flat_laws).
  destruct Hall as (Hcycles & Hpc & _ & _ & _ & Hhalt & Hbit & _).
  - reflexivity.
  - reflexivity.
  - reflexivity.
  - vm_compute. intros Hc. discriminate Hc.
  - cbn. lia.
  - lia.
  - reflexivity.
  - reflexivity.
  - intros j Hj.
    assert (Hcases : j = 0 ∨ j = 1 ∨ j = 2) by lia.
    destruct Hcases as [->|[->| ->]]; reflexivity.
  - vm_compute. intros Hc. discriminate Hc.
  - vm_compute. intros Hc. discriminate Hc.
  - exact (conj Hcycles (conj Hpc (conj Hhalt Hbit))).
Defined.

Lemma doInterrupts_cycles_witness :
  let gb := flat_machine 0x1F 0x1F 0 0 0 0x0150 0xFFFE true false false in
  doInterrupts gb
    = (0, set_interruptsEnabling (set_interruptsOn gb true) false).
Proof.
  cbv zeta.
  assert (Hall := doInterrupts_cycles
    (flat_machine 0x1F 0x1F 0 0 0 0x0150 0xFFFE true false false)).
  destruct Hall as (_ & Hzero).
  - vm_compute. intros Hc. discriminate Hc.
  - apply Hzero. vm_compute. intros Hc. discriminate Hc.
Defined.

(** ** The timer counter *)

Section TimerCounter.
Context {D : Type} `{MemoryMethods D}.

Lemma timerLoop_counter fuel freq (gb : Gameboy D) :
  0 < freq →
  0 ≤ timerCounter gb < 0x8000000000000000 →
  (Z.to_nat (timerCounter gb / freq) ≤ fuel)%nat →
  ∃ gb', timerLoop fuel freq gb = Some gb' ∧
         timerCounter gb' = timerCounter gb mod freq.
Proof.
  intros Hfreq. revert gb.
  induction fuel as [|fuel IH]; intros gb Htc Hfuel.
  - assert (Hq : timerCounter gb / freq = 0).
    { pose proof (Z.div_pos (timerCounter gb) freq ltac:(lia) Hfreq). lia. }
    apply Z.div_small_iff in Hq; [|lia].
    exists gb. split; [apply timerLoop_done; lia|].
    symmetry. apply Z.mod_small. lia.
  - destruct (Z.lt_ge_cases (timerCounter gb) freq) as [Hlt|Hge].
    + exists gb. split; [apply timerLoop_done; exact Hlt|].
      symmetry. apply Z.mod_small. lia.
    + cbn [timerLoop]. apply Z.leb_le in Hge as Hleb. rewrite Hleb.
      rewrite (int_small (timerCounter gb - freq)) by lia.
      match goal with
      | |- ∃ gb', timerLoop fuel freq ?next = Some gb' ∧ _ =>
          assert (Hnext : timerCounter next = timerCounter gb - freq)
            by (destruct (_ =? 0xFF); reflexivity);
          destruct (IH next) as (gb' & Hrun & Hmod)
      end.
      * rewrite Hnext. lia.
      * rewrite Hnext.
        replace (timerCounter gb - freq)
          with (timerCounter gb + (-1) * freq) by lia.
        rewrite Z.div_add by lia.
        pose proof (Z.div_le_lower_bound (timerCounter gb) freq 1 Hfreq
                      ltac:(lia)). lia.
      * exists gb'. split; [exact Hrun|]. rewrite Hmod, Hnext.
        replace (timerCounter gb - freq)
          with (timerCounter gb + (-1) * freq) by lia.
        apply Z.mod_add. lia.
Qed.

(** X16.  [updateTimers] ends when the fuel covers the thresholds the counter
    holds, and it leaves the internal counter below the threshold: with the
    timer enabled the counter becomes the sum of the counter and the cycles
    modulo the threshold of the selected frequency, and with the timer
    disabled it is not touched. *)
Theorem updateTimers_counter fuel (gb : Gameboy D) cycles :
  0 ≤ timerCounter gb →
  0 ≤ cycles →
  timerCounter gb + cycles < 0x8000000000000000 →
  (Z.to_nat ((timerCounter gb + cycles) / getClockFreqCount gb) ≤ fuel)%nat →
  ∃ gb',
    updateTimers fuel gb cycles = Some gb' ∧
    timerCounter gb'
      = (if isClockEnabled gb
         then (timerCounter gb + cycles) mod getClockFreqCount gb
         else timerCounter gb) ∧
    (isClockEnabled gb = true →
       0 ≤ timerCounter gb' < getClockFreqCount gb).
Proof.
  intros Htc Hcycles Hsum Hfuel.
  destruct (dividerRegister_frame gb cycles 0x07 ltac:(lia) ltac:(lia))
    as [H7 Hc1].
  assert (Hfreq_pos : 0 < getClockFreqCount gb).
  { destruct (getClockFreqCount_table gb) as (T0 & T1 & T2 & T3 & Tcases).
    destruct Tcases as [E|[E|[E|E]]];
      [rewrite (T0 E)|rewrite (T1 E)|rewrite (T2 E)|rewrite (T3 E)]; lia. }
  unfold updateTimers. cbv zeta.
  assert (Hen : isClockEnabled (dividerRegister gb cycles)
                = isClockEnabled gb).
  { unfold isClockEnabled. rewrite H7. reflexivity. }
  rewrite Hen. destruct (isClockEnabled gb) eqn:Hon.
  - assert (Hfreq : getClockFreqCount
              (set_timerCounter (dividerRegister gb cycles)
                 (Go.int (timerCounter (dividerRegister gb cycles) + cycles)))
              = getClockFreqCount gb).
    { unfold getClockFreqCount, getClockFreq.
      cbn [set_timerCounter gb_Memory]. rewrite H7. reflexivity. }
    rewrite Hfreq, Hc1. rewrite (int_small (timerCounter gb + cycles)) by lia.
    destruct (timerLoop_counter fuel (getClockFreqCount gb)
                (set_timerCounter (dividerRegister gb cycles)
                   (timerCounter gb + cycles)) Hfreq_pos)
      as (gb' & Hrun & Hmod).
    + cbn [set_timerCounter timerCounter]. lia.
    + cbn [set_timerCounter timerCounter]. exact Hfuel.
    + cbn [set_timerCounter timerCounter] in Hmod.
      exists gb'. split; [exact Hrun|]. split; [exact Hmod|].
      intros _. rewrite Hmod. apply Z.mod_pos_bound. exact Hfreq_pos.
  - eexists. split; [reflexivity|]. split; [exact Hc1|discriminate].
Qed.
End TimerCounter.

Lemma updateTimers_counter_witness :
  let gb := set_timerCounter
              (flat_machine 0 0 0x10 0 0x05 0x0150 0xFFFE false false false)
              10 in
  ∃ gb',
    updateTimers 2 gb 24 = Some gb' ∧
    timerCounter gb' = (10 + 24) mod 16.
Proof.
  cbv zeta.
  assert (Hall := updateTimers_counter 2
    (set_timerCounter
       (flat_machine 0 0 0x10 0 0x05 0x0150 0xFFFE false false false) 10) 24).
  destruct Hall as (gb' & Hrun & Hcounter & _).
  - cbn. lia.
  - lia.
  - cbn. lia.
  - vm_compute. lia.
  - exists gb'. exact (conj Hrun Hcounter).
Defined.

(** ** The registers in the save state *)

Lemma read_le16 x reader :
  0 ≤ x < 0x10000 → read_uint16 (le16 x ++ reader) = Some (x, reader).
Proof.
  intros Hx. unfold le16. cbn [app read_uint16].
  pose (P := λ x, Z.lor (Z.land x 0xFF)
                        (Z.shiftl (Z.land (Z.shiftr x 8) 0xFF) 8) =? x).
  assert (HP : P x = true).
  { apply forall_word_spec; [vm_compute; reflexivity | exact Hx]. }
  apply Z.eqb_eq in HP. rewrite HP. reflexivity.
Qed.

(** The register pairs, program counter and stack pointer are 16-bit. *)
Definition registers_16bit (c : CPU) : Prop :=
  0 ≤ register_HiLo (AF c) < 0x10000 ∧ 0 ≤ register_HiLo (BC c) < 0x10000 ∧
  0 ≤ register_HiLo (DE c) < 0x10000 ∧ 0 ≤ register_HiLo (HL c) < 0x10000 ∧
  0 ≤ PC c < 0x10000 ∧ 0 ≤ register_HiLo (SP c) < 0x10000.

Section SaveRegisters.
Context {D : Type} `{MemoryMethods D}.

(** X17.  When the memory part of the state is saved and loaded without error,
    [LoadState] on the stream of [SaveState] restores the four register
    pairs, the program counter and the stack pointer, and takes the memory
    from the memory's loader; the stream has 21 bytes before the memory's.
    The divider counter of the CPU is not in the stream: the machine loaded
    into keeps its own. *)
Theorem SaveState_LoadState_registers (gb gb0 : Gameboy D) mem mem' :
  Memory_SaveState (gb_Memory gb) = Some mem →
  Memory_LoadState (gb_Memory gb0) mem = Some mem' →
  registers_16bit (gb_CPU gb) →
  ∃ stream gb',
    SaveState gb = Some stream ∧
    length stream = (21 + length mem)%nat ∧
    LoadState gb0 stream = Some gb' ∧
    register_HiLo (AF (gb_CPU gb')) = register_HiLo (AF (gb_CPU gb)) ∧
    register_HiLo (BC (gb_CPU gb')) = register_HiLo (BC (gb_CPU gb)) ∧
    register_HiLo (DE (gb_CPU gb')) = register_HiLo (DE (gb_CPU gb)) ∧
    register_HiLo (HL (gb_CPU gb')) = register_HiLo (HL (gb_CPU gb)) ∧
    PC (gb_CPU gb') = PC (gb_CPU gb) ∧
    register_HiLo (SP (gb_CPU gb')) = register_HiLo (SP (gb_CPU gb)) ∧
    Divider (gb_CPU gb') = Divider (gb_CPU gb0) ∧
    gb_Memory gb' = mem'.
Proof.
  intros Hsave Hload (Haf & Hbc & Hde & Hhl & Hpc & Hsp).
  unfold SaveState. rewrite Hsave. cbn [mbind option_bind].
  eexists. eexists. split; [reflexivity|]. split; [reflexivity|].
  unfold LoadState.
  rewrite read_le16 by exact Haf. cbn [mbind option_bind].
  rewrite read_le16 by exact Hbc. cbn [mbind option_bind].
  rewrite read_le16 by exact Hde. cbn [mbind option_bind].
  rewrite read_le16 by exact Hhl. cbn [mbind option_bind].
  rewrite read_le16 by exact Hpc. cbn [mbind option_bind].
  rewrite read_le16 by exact Hsp. cbn [mbind option_bind].
  unfold le32. cbn [app read_int32 read_uint8 mbind option_bind].
  cbn [loadInterrupts set_halted set_interruptsOn set_interruptsEnabling
       set_timerCounter set_CPU gb_Memory].
  rewrite Hload. cbn [mbind option_bind].
  split; [reflexivity|]. repeat split.
Qed.

(** X18.  A stream of fewer than 21 bytes is refused: [LoadState] returns an
    error before it comes to the memory. *)
Theorem LoadState_short_stream (gb0 : Gameboy D) stream :
  (length stream < 21)%nat → LoadState gb0 stream = None.
Proof.
  intros Hshort.
  do 21 (destruct stream as [|? stream]; [reflexivity|]).
  cbn [length] in Hshort. lia.
Qed.
End SaveRegisters.

Lemma SaveState_LoadState_registers_witness :
  let gb := flat_machine 0 0 0 0 0 0x0150 0xFFFE false true false in
  ∃ stream gb',
    SaveState gb = Some stream ∧
    LoadState gb stream = Some gb' ∧
    PC (gb_CPU gb') = 0x0150 ∧
    register_HiLo (SP (gb_CPU gb')) = 0xFFFE.
Proof.
  cbv zeta.
  assert (Hall := SaveState_LoadState_registers
    (flat_machine 0 0 0 0 0 0x0150 0xFFFE false true false)
    (flat_machine 0 0 0 0 0 0x0150 0xFFFE false true false)
    (HighRAM (gb_Memory
       (flat_machine 0 0 0 0 0 0x0150 0xFFFE false true false)))
    (gb_Memory (flat_machine 0 0 0 0 0 0x0150 0xFFFE false true false))).
  destruct Hall as (stream & gb' & Hs & _ & Hl & _ & _ & _ & _ & Hpc & Hsp & _).
  - reflexivity.
  - reflexivity.
  - unfold registers_16bit. cbn. lia.
  - exists stream, gb'. exact (conj Hs (conj Hl (conj Hpc Hsp))).
Defined.

Lemma LoadState_short_stream_witness :
  LoadState (flat_machine 0 0 0 0 0 0x0150 0xFFFE false true false)
            (replicate 20 0xFF) = None.
Proof.
  apply (LoadState_short_stream
           (flat_machine 0 0 0 0 0 0x0150 0xFFFE false true false)
           (replicate 20 0xFF)).
  cbn. lia.
Defined.

(** ** The joypad register and the speed switch *)

(** X19.  [joypadValue] returns a byte that keeps every bit of the current
    register value and has bits 6 and 7 set.  Its low nibble takes in the
    low nibble of the input mask when bit 4 of the current value is set,
    otherwise the high nibble of the mask when bit 5 is set, and is 0xF when
    neither is. *)
Theorem joypadValue_bits k current :
  0 ≤ current < 0x100 →
  0 ≤ inputMask k < 0x100 →
  0 ≤ joypadValue k current < 0x100 ∧
  Z.land (joypadValue k current) 0xC0 = 0xC0 ∧
  Z.land (joypadValue k current) current = current ∧
  Z.land (joypadValue k current) 0xF
    = (if bits.Test current 4
       then Z.lor (Z.land current 0xF) (Z.land (inputMask k) 0xF)
       else if bits.Test current 5
            then Z.lor (Z.land current 0xF)
                       (Z.land (Z.shiftr (inputMask k) 4) 0xF)
            else 0xF).
Proof.
  intros Hc Hm.
  pose (P := λ c, forall_below 256 (λ m,
    let r := joypadValue (mkControls 0 false false m) c in
    (0 <=? r) && (r <? 0x100) && (Z.land r 0xC0 =? 0xC0) &&
    (Z.land r c =? c) &&
    (Z.land r 0xF =?
       (if bits.Test c 4 then Z.lor (Z.land c 0xF) (Z.land m 0xF)
        else if bits.Test c 5
             then Z.lor (Z.land c 0xF) (Z.land (Z.shiftr m 4) 0xF)
             else 0xF)))).
  assert (HP : P current = true).
  { apply (forall_below_spec 256); [vm_compute; reflexivity | lia]. }
  apply (forall_below_spec 256) with (x := inputMask k) in HP; [|lia].
  cbv zeta in HP.
  change (joypadValue (mkControls 0 false false (inputMask k)) current)
    with (joypadValue k current) in HP.
  repeat (apply andb_true_iff in HP as [HP ?]). bool_facts.
  repeat split; assumption.
Qed.

Lemma joypadValue_bits_witness :
  Z.land (joypadValue (mkControls 0 false false 0xE7) 0x10) 0xF
    = (if bits.Test 0x10 4
       then Z.lor (Z.land 0x10 0xF) (Z.land 0xE7 0xF)
       else if bits.Test 0x10 5
            then Z.lor (Z.land 0x10 0xF) (Z.land (Z.shiftr 0xE7 4) 0xF)
            else 0xF).
Proof.
  assert (Hall := joypadValue_bits (mkControls 0 false false 0xE7) 0x10).
  destruct Hall as (_ & _ & _ & Hlow).
  - lia.
  - cbn. lia.
  - exact Hlow.
Defined.

(** X20.  An armed speed switch is consumed by one call: [checkSpeedSwitch] clears
    the pending flag, moves the speed to 1 from 0 and to 0 from any other
    value, so that the speed multiplier is 1 or 2 afterwards, clears the
    halted flag, leaves memory and registers alone, and a second call
    changes nothing. *)
Theorem checkSpeedSwitch_consumed {D} (gb : Gameboy D) k :
  prepareSpeed k = true →
  prepareSpeed (checkSpeedSwitch gb k).2 = false ∧
  currentSpeed (checkSpeedSwitch gb k).2
    = (if currentSpeed k =? 0 then 1 else 0) ∧
  (getSpeed (checkSpeedSwitch gb k).2 = 1 ∨
   getSpeed (checkSpeedSwitch gb k).2 = 2) ∧
  halted (checkSpeedSwitch gb k).1 = false ∧
  gb_Memory (checkSpeedSwitch gb k).1 = gb_Memory gb ∧
  gb_CPU (checkSpeedSwitch gb k).1 = gb_CPU gb ∧
  checkSpeedSwitch (checkSpeedSwitch gb k).1 (checkSpeedSwitch gb k).2
    = checkSpeedSwitch gb k.
Proof.
  intros Harmed. unfold checkSpeedSwitch. rewrite Harmed.
  cbn [currentSpeed prepareSpeed paused inputMask].
  destruct (currentSpeed k =? 0);
    cbn [fst snd currentSpeed prepareSpeed halted gb_Memory gb_CPU];
    repeat split; auto.
Qed.

Lemma checkSpeedSwitch_consumed_witness :
  let gb := flat_machine 0 0 0 0 0 0x0150 0xFFFE false false true in
  let k := mkControls 0 true false 0xFF in
  currentSpeed (checkSpeedSwitch gb k).2 = 1 ∧
  halted (checkSpeedSwitch gb k).1 = false ∧
  checkSpeedSwitch (checkSpeedSwitch gb k).1 (checkSpeedSwitch gb k).2
    = checkSpeedSwitch gb k.
Proof.
  cbv zeta.
  assert (Hall := checkSpeedSwitch_consumed
    (flat_machine 0 0 0 0 0 0x0150 0xFFFE false false true)
    (mkControls 0 true false 0xFF)).
  destruct Hall as (_ & Hspeed & _ & Hhalt & _ & _ & Hagain).
  - reflexivity.
  - exact (conj Hspeed (conj Hhalt Hagain)).
Defined.
